(** * The login pipeline of app.py (extendedLoginForm.validate) and run_query

    A shallow embedding of the two pieces of app.py that carry decision
    logic: the overridden [validate] of [extendedLoginForm] (lines 132-181)
    and [run_query] (lines 113-124).  Python objects that are mutated in
    place (the form, its fields, the datastore) live in an explicit [World]
    that is threaded through a small exception-and-state monad; the calls
    whose number or order matters (directory lookups, rehashes, the checks
    themselves) are recorded in the world's trace. *)

From Stdlib Require Import String Ascii List Bool Arith ZArith Lia.
From stdpp Require Import base option list strings gmap.
Import ListNotations.
Open Scope string_scope.

(** ** Python strings *)

Module Py.

(** [str.isspace] on the code points below 256: TAB, LF, VT, FF, CR, the
    four separators FS, GS, RS, US, SPACE, NEL and NBSP. *)
Definition isspace (c : ascii) : bool :=
  let n := nat_of_ascii c in
  (((9 <=? n) && (n <=? 13)) || ((28 <=? n) && (n <=? 32))
   || (n =? 133) || (n =? 160))%nat.

Fixpoint lstrip (s : string) : string :=
  match s with
  | EmptyString => EmptyString
  | String c r => if isspace c then lstrip r else s
  end.

Definition rstrip (s : string) : string :=
  String.rev (lstrip (String.rev s)).

(** [s.strip()] *)
Definition strip (s : string) : string := rstrip (lstrip s).

(** Truthiness of a nullable string ([None] and [''] are falsy). *)
Definition truthy_str (o : option string) : bool :=
  match o with
  | Some s => negb (String.eqb s "")
  | None => false
  end.

(** Truthiness of a nullable boolean. *)
Definition truthy_bool (o : option bool) : bool :=
  match o with
  | Some b => b
  | None => false
  end.

(** The exceptions this development meets. *)
Inductive Exn : Type :=
  | AttributeError (type_name attr : string)
  | NameError (name : string).

Inductive outcome (A : Type) : Type :=
  | Returned (a : A)
  | Raised (e : Exn).
Arguments Returned {A} a.
Arguments Raised {A} e.

End Py.
Import Py.

(** ** Database model (lines 85-100) *)

(** A row of [flask_security_user].  Every column but the key is nullable;
    [roles] plays no part in [validate] and is left out. *)
Module User.

Record t : Type := mk {
  id : nat;
  username : option string;
  password : option string;
  email : option string;
  active : option bool
}.

(** The attributes an instance of [User] answers to: its table name,
    columns and relationship (lines 86-94), its two methods (lines 96-100)
    and what its bases [db.Model] and [UserMixin] add.  The class body
    defines no [errors], and neither base does. *)
Definition attributes : list string :=
  [ "__tablename__"; "id"; "username"; "password"; "email"; "active";
    "roles"; "hash_password"; "verify_password";
    "query"; "metadata";
    "is_active"; "is_authenticated"; "is_anonymous"; "get_id";
    "get_auth_token"; "has_role" ].

(** [UserMixin.is_active] returns the [active] column. *)
Definition is_active (u : t) : option bool := active u.

End User.

(** ** WTForms fields and forms *)

(** A validator sees the field's data and the errors collected so far; it
    returns the errors it leaves behind and whether it stops the chain
    (StopValidation). *)
Definition Validator : Type := string -> list string -> list string * bool.

Record Field : Type := mkField {
  data : string;
  errors : list string;
  validators : list Validator
}.

(** [wtforms.validators.Required()] (line 133): blank data clears the
    errors, records the default message and stops the chain. *)
Definition Required : Validator := fun d errs =>
  if String.eqb (strip d) "" then (["This field is required."], true)
  else (errs, false).

Fixpoint run_validation_chain (vs : list Validator) (d : string)
    (errs : list string) : list string :=
  match vs with
  | [] => errs
  | v :: vs' =>
      let '(errs', stop) := v d errs in
      if stop then errs' else run_validation_chain vs' d errs'
  end.

(** [Field.validate]: the error list starts afresh, the chain runs, and
    the field is valid when no error was recorded. *)
Definition Field_validate (f : Field) : Field :=
  {| data := data f;
     errors := run_validation_chain (validators f) (data f) [];
     validators := validators f |}.

Definition append_error (msg : string) (f : Field) : Field :=
  {| data := data f; errors := errors f ++ [msg]; validators := validators f |}.

(** The login form: [username] is declared on line 133; [password] and the
    remaining fields are inherited from flask_security's [LoginForm];
    [user] is the attribute line 153 assigns. *)
Record LoginForm : Type := mkForm {
  username : Field;
  password : Field;
  inherited : list (string * Field);
  user : option User.t
}.

(** [form.errors]: the fields that hold an error, by name. *)
Definition Form_errors (f : LoginForm) : list (string * list string) :=
  filter (fun p => p.2 ≠ [])
    (("username", errors (username f)) :: ("password", errors (password f))
       :: map (fun p => (p.1, errors p.2)) (inherited f)).

(** ** The world and the monad *)

Inductive Check : Type :=
  | IdentifierPresence
  | SecretPresence
  | IdentityResolution
  | SecretHashPresence
  | SecretVerification
  | ConfirmationGate
  | ActivationGate.

#[global] Instance Check_eq_dec : EqDecision Check.
Proof. solve_decision. Defined.

(** The order in which lines 142-176 test their conditions. *)
Definition check_order : list Check :=
  [ IdentifierPresence; SecretPresence; IdentityResolution;
    SecretHashPresence; SecretVerification; ConfirmationGate;
    ActivationGate ].

Inductive Event : Type :=
  | EvCheck (c : Check)
  | EvLookup (identifier : string)
  | EvRehash (plaintext : string) (u : User.t).

Definition checks_of (t : list Event) : list Check :=
  omap (fun e => match e with EvCheck c => Some c | _ => None end) t.

Definition lookups_of (t : list Event) : list string :=
  omap (fun e => match e with EvLookup s => Some s | _ => None end) t.

Definition rehashes_of (t : list Event) : list (string * User.t) :=
  omap (fun e => match e with EvRehash s u => Some (s, u) | _ => None end) t.

Section Pipeline.

(** The collaborators of [validate] that app.py imports or configures. *)
Variable Datastore : Type.
(** [security.datastore.get_user] *)
Variable get_user : Datastore -> string -> option User.t.
(** PasswordHasher.verify: (matched, needsRehash) *)
Variable hasher_verify : string -> string -> bool * bool.
(** PasswordHasher.hash *)
Variable hasher_hash : string -> string.
(** Storing a new hash for an account; [None] when the write fails. *)
Variable store_password : Datastore -> User.t -> string -> option Datastore.
(** [flask_security.confirmable.requires_confirmation] *)
Variable requires_confirmation : User.t -> bool.

Record World : Type := mkWorld {
  self : LoginForm;
  datastore : Datastore;
  trace : list Event
}.

Definition M (A : Type) : Type := World -> outcome A * World.

Definition ret {A} (a : A) : M A := fun w => (Returned a, w).

Definition bind {A B} (m : M A) (k : A -> M B) : M B := fun w =>
  match m w with
  | (Returned a, w') => k a w'
  | (Raised e, w') => (Raised e, w')
  end.

Definition raise {A} (e : Exn) : M A := fun w => (Raised e, w).

Definition get_self : M LoginForm := fun w => (Returned (self w), w).

Definition set_self (f : LoginForm -> LoginForm) : M unit := fun w =>
  (Returned tt,
   {| self := f (self w); datastore := datastore w; trace := trace w |}).

Definition emit (e : Event) : M unit := fun w =>
  (Returned tt,
   {| self := self w; datastore := datastore w; trace := trace w ++ [e] |}).

Notation "x <- m ;; k" := (bind m (fun x => k))
  (at level 100, m at next level, right associativity).
Notation "m ;;; k" := (bind m (fun _ => k))
  (at level 100, right associativity).

(** *** The calls [validate] makes *)

(** [super(LoginForm, self).validate()] (line 137), that is
    [wtforms.Form.validate]: every field is validated (no short-circuit
    between fields) and the form is valid when every field is. *)
Definition Form_validate : M bool :=
  set_self (fun f =>
    {| username := Field_validate (username f);
       password := Field_validate (password f);
       inherited := map (fun p => (p.1, Field_validate p.2)) (inherited f);
       user := user f |}) ;;;
  f <- get_self ;;
  ret (bool_decide (Form_errors f = [])).

Definition username_errors_append (msg : string) : M unit :=
  set_self (fun f =>
    {| username := append_error msg (username f); password := password f;
       inherited := inherited f; user := user f |}).

Definition password_errors_append (msg : string) : M unit :=
  set_self (fun f =>
    {| username := username f; password := append_error msg (password f);
       inherited := inherited f; user := user f |}).

Definition set_user (u : option User.t) : M unit :=
  set_self (fun f =>
    {| username := username f; password := password f;
       inherited := inherited f; user := u |}).

(** [security.datastore.get_user(identifier)] *)
Definition datastore_get_user (identifier : string) : M (option User.t) :=
  emit (EvLookup identifier) ;;;
  fun w => (Returned (get_user (datastore w) identifier), w).

(** [self.user.errors]: attribute lookup on a [User] instance. *)
Definition User_getattr_errors (u : User.t) : M (list string) :=
  if bool_decide ("errors" ∈ User.attributes) then ret []
  else raise (AttributeError "User" "errors").

(** Modelled from the spec: [verify_and_update_password] is imported from
    flask_security.utils (line 52) and its body is not part of app.py.
    Following section 4.1 step 5 and section 6 of the specification: the
    hasher verifies the plaintext against the stored hash; when it matches
    and the hash is flagged outdated, one rehash-and-store of the plaintext
    is triggered, and a failure of that write is dropped. *)
Definition verify_and_update_password (plaintext : string) (u : User.t)
    : M bool :=
  let '(matched, needs_rehash) :=
    hasher_verify plaintext (default "" (User.password u)) in
  (if matched && needs_rehash then
     emit (EvRehash plaintext u) ;;;
     fun w =>
       (Returned tt,
        match store_password (datastore w) u (hasher_hash plaintext) with
        | Some ds' => {| self := self w; datastore := ds'; trace := trace w |}
        | None => w
        end)
   else ret tt) ;;;
  ret matched.

(** *** [extendedLoginForm.validate] (lines 136-181) *)

Definition validate : M bool :=
  ok <- Form_validate ;;
  if negb ok then ret false else
  f <- get_self ;;
  emit (EvCheck IdentifierPresence) ;;;
  if String.eqb (strip (data (username f))) "" then
    username_errors_append "USERNAME NOT PROVIDED" ;;; ret false
  else
  emit (EvCheck SecretPresence) ;;;
  if String.eqb (strip (data (password f))) "" then
    password_errors_append "PASSWORD NOT PROVIDED" ;;; ret false
  else
  found <- datastore_get_user (data (username f)) ;;
  set_user found ;;;
  emit (EvCheck IdentityResolution) ;;;
  match found with
  | None =>
      username_errors_append "INCORRECT USERNAME/PASSWORD" ;;; ret false
  | Some u =>
      emit (EvCheck SecretHashPresence) ;;;
      if negb (truthy_str (User.password u)) then
        password_errors_append "PASSWORD WAS NOT SET" ;;; ret false
      else
      emit (EvCheck SecretVerification) ;;;
      verified <- verify_and_update_password (data (password f)) u ;;
      if negb verified then
        password_errors_append "INCORRECT USERNAME/PASSWORD" ;;; ret false
      else
      emit (EvCheck ConfirmationGate) ;;;
      if requires_confirmation u then
        (* line 172: [self.user.errors] is evaluated first; the append
           would leave the form's fields as they are *)
        _ <- User_getattr_errors u ;;
        ret false
      else
      emit (EvCheck ActivationGate) ;;;
      if negb (truthy_bool (User.is_active u)) then
        username_errors_append "DISABLED ACCOUNT" ;;; ret false
      else
      ret true
  end.

End Pipeline.

Arguments self {Datastore} w.
Arguments datastore {Datastore} w.
Arguments trace {Datastore} w.
Arguments mkWorld {Datastore} self datastore trace.

(** ** One login attempt *)

(** The fixed order up to and including [c]. *)
Fixpoint take_through (c : Check) (l : list Check) : list Check :=
  match l with
  | [] => []
  | x :: l' => x :: (if decide (x = c) then [] else take_through c l')
  end.

Fixpoint take_before (c : Check) (l : list Check) : list Check :=
  match l with
  | [] => []
  | x :: l' => if decide (x = c) then [] else x :: take_before c l'
  end.

(** The checks that come before [c] in the fixed order. *)
Definition before (c : Check) : list Check := take_before c check_order.

(** What each failing check records (lines 143-177); the confirmation gate
    records nothing, as line 172 raises before it can append. *)
Definition failure_report (c : Check) : list (string * list string) :=
  match c with
  | IdentifierPresence => [("username", ["USERNAME NOT PROVIDED"])]
  | SecretPresence => [("password", ["PASSWORD NOT PROVIDED"])]
  | IdentityResolution => [("username", ["INCORRECT USERNAME/PASSWORD"])]
  | SecretHashPresence => [("password", ["PASSWORD WAS NOT SET"])]
  | SecretVerification => [("password", ["INCORRECT USERNAME/PASSWORD"])]
  | ConfirmationGate => []
  | ActivationGate => [("username", ["DISABLED ACCOUNT"])]
  end.

(** The spec's view of what [validate] leaves behind (section 3). *)
Record ValidationResult : Type := mkResult {
  succeeded : bool;
  fieldErrors : list (string * list string);
  resolvedAccount : option User.t
}.

Definition result_of {Datastore} (r : outcome bool * World Datastore)
    : outcome ValidationResult :=
  match r.1 with
  | Returned b =>
      Returned {| succeeded := b;
                  fieldErrors := Form_errors (self r.2);
                  resolvedAccount := user (self r.2) |}
  | Raised e => Raised e
  end.

(** [msg] is among the errors that [r] holds on the field called [field]. *)
Definition error_on (field msg : string) (r : ValidationResult) : Prop :=
  ∃ msgs, (field, msgs) ∈ fieldErrors r ∧ msg ∈ msgs.

Section Login.

Context {Datastore : Type}.
Variable get_user : Datastore -> string -> option User.t.
Variable hasher_verify : string -> string -> bool * bool.
Variable hasher_hash : string -> string.
Variable store_password : Datastore -> User.t -> string -> option Datastore.
Variable requires_confirmation : User.t -> bool.
(** The validators of the inherited password field and the other inherited
    fields, as flask_security declares them. *)
Variable password_validators : list Validator.
Variable inherited_fields : list (string * Field).

(** The form as built from a submitted (identifier, secret) pair. *)
Definition extendedLoginForm (identifier secret : string) : LoginForm :=
  {| username := {| data := identifier; errors := [];
                    validators := [Required] |};
     password := {| data := secret; errors := [];
                    validators := password_validators |};
     inherited := inherited_fields;
     user := None |}.

(** Build the form, call [validate] on it. *)
Definition login (ds : Datastore) (identifier secret : string)
    : outcome bool * World Datastore :=
  validate Datastore get_user hasher_verify hasher_hash store_password
    requires_confirmation
    (mkWorld (extendedLoginForm identifier secret) ds []).

Definition login_result (ds : Datastore) (identifier secret : string)
    : outcome ValidationResult :=
  result_of (login ds identifier secret).

(** The form as line 137 leaves it. *)
Definition validated (identifier secret : string) : LoginForm :=
  {| username :=
       Field_validate (username (extendedLoginForm identifier secret));
     password :=
       Field_validate (password (extendedLoginForm identifier secret));
     inherited :=
       map (fun p => (p.1, Field_validate p.2))
         (inherited (extendedLoginForm identifier secret));
     user := user (extendedLoginForm identifier secret) |}.

(** Whether line 137 lets the form through. *)
Definition fields_valid (identifier secret : string) : bool :=
  bool_decide (Form_errors (validated identifier secret) = []).

(** The condition each check of lines 142-176 asks for, read off the
    submitted pair and the directory. *)
Definition check_ok (ds : Datastore) (identifier secret : string)
    (c : Check) : bool :=
  match c with
  | IdentifierPresence => negb (String.eqb (strip identifier) "")
  | SecretPresence => negb (String.eqb (strip secret) "")
  | IdentityResolution =>
      match get_user ds identifier with Some _ => true | None => false end
  | SecretHashPresence =>
      match get_user ds identifier with
      | Some u => truthy_str (User.password u)
      | None => false
      end
  | SecretVerification =>
      match get_user ds identifier with
      | Some u => (hasher_verify secret (default "" (User.password u))).1
      | None => false
      end
  | ConfirmationGate =>
      match get_user ds identifier with
      | Some u => negb (requires_confirmation u)
      | None => false
      end
  | ActivationGate =>
      match get_user ds identifier with
      | Some u => truthy_bool (User.is_active u)
      | None => false
      end
  end.

(** The first check of the fixed order whose condition fails. *)
Definition first_failure (ds : Datastore) (identifier secret : string)
    : option Check :=
  List.find (fun c => negb (check_ok ds identifier secret c)) check_order.

(** Whether the run gets as far as performing check [c]: line 137 lets the
    form through and every earlier check passes. *)
Definition reaches (ds : Datastore) (identifier secret : string)
    (c : Check) : bool :=
  fields_valid identifier secret
  && forallb (check_ok ds identifier secret) (before c).

End Login.

(** ** The confirmation gate as flask_security runs it *)

Module App.

(** The two settings the gate reads.  They come from appconfig.py and
    customconfig.py, which are not part of app.py; both default to
    [False]. *)
Record SecurityConfig : Type := mkConfig {
  confirmable : bool;
  login_without_confirmation : bool
}.

(** Whether logging in asks for a confirmed account. *)
Definition confirmation_in_force (config : SecurityConfig) : bool :=
  confirmable config && negb (login_without_confirmation config).

Section Configured.

Context {Datastore : Type}.
Variable get_user : Datastore -> string -> option User.t.
Variable hasher_verify : string -> string -> bool * bool.
Variable hasher_hash : string -> string.
Variable store_password : Datastore -> User.t -> string -> option Datastore.
Variable password_validators : list Validator.
Variable inherited_fields : list (string * Field).
Variable config : SecurityConfig.

Notation "x <- m ;; k" := (bind Datastore m (fun x => k))
  (at level 100, m at next level, right associativity).
Notation "m ;;; k" := (bind Datastore m (fun _ => k))
  (at level 100, right associativity).

(** [user.confirmed_at]: attribute lookup on a [User] instance, whose
    [confirmed_at] column is commented out (line 92).  The value, were
    there one, is a nullable time stamp. *)
Definition User_getattr_confirmed_at (u : User.t)
    : M Datastore (option nat) :=
  if bool_decide ("confirmed_at" ∈ User.attributes) then ret Datastore None
  else raise Datastore (AttributeError "User" "confirmed_at").

(** [flask_security.confirmable.requires_confirmation] (imported on line
    54), which returns
    [_security.confirmable and not _security.login_without_confirmation
     and user.confirmed_at is None]: the attribute is read only when both
    settings ask for it. *)
Definition requires_confirmation (u : User.t) : M Datastore bool :=
  if confirmable config then
    if negb (login_without_confirmation config) then
      confirmed_at <- User_getattr_confirmed_at u ;;
      ret Datastore (bool_decide (confirmed_at = None))
    else ret Datastore false
  else ret Datastore false.

(** [extendedLoginForm.validate] (lines 136-181) with the call of line 171
    made to that function. *)
Definition validate : M Datastore bool :=
  ok <- Form_validate Datastore ;;
  if negb ok then ret Datastore false else
  f <- get_self Datastore ;;
  emit Datastore (EvCheck IdentifierPresence) ;;;
  if String.eqb (strip (data (username f))) "" then
    username_errors_append Datastore "USERNAME NOT PROVIDED" ;;;
    ret Datastore false
  else
  emit Datastore (EvCheck SecretPresence) ;;;
  if String.eqb (strip (data (password f))) "" then
    password_errors_append Datastore "PASSWORD NOT PROVIDED" ;;;
    ret Datastore false
  else
  found <- datastore_get_user Datastore get_user (data (username f)) ;;
  set_user Datastore found ;;;
  emit Datastore (EvCheck IdentityResolution) ;;;
  match found with
  | None =>
      username_errors_append Datastore "INCORRECT USERNAME/PASSWORD" ;;;
      ret Datastore false
  | Some u =>
      emit Datastore (EvCheck SecretHashPresence) ;;;
      if negb (truthy_str (User.password u)) then
        password_errors_append Datastore "PASSWORD WAS NOT SET" ;;;
        ret Datastore false
      else
      emit Datastore (EvCheck SecretVerification) ;;;
      verified <- verify_and_update_password Datastore hasher_verify
                    hasher_hash store_password (data (password f)) u ;;
      if negb verified then
        password_errors_append Datastore "INCORRECT USERNAME/PASSWORD" ;;;
        ret Datastore false
      else
      emit Datastore (EvCheck ConfirmationGate) ;;;
      pending <- requires_confirmation u ;;
      if pending then
        _ <- User_getattr_errors Datastore u ;;
        ret Datastore false
      else
      emit Datastore (EvCheck ActivationGate) ;;;
      if negb (truthy_bool (User.is_active u)) then
        username_errors_append Datastore "DISABLED ACCOUNT" ;;;
        ret Datastore false
      else
      ret Datastore true
  end.

(** Build the form, call [validate] on it. *)
Definition login (ds : Datastore) (identifier secret : string)
    : outcome bool * World Datastore :=
  validate
    (mkWorld
       (extendedLoginForm password_validators inherited_fields identifier
          secret) ds []).

Definition login_result (ds : Datastore) (identifier secret : string)
    : outcome ValidationResult :=
  result_of (login ds identifier secret).

End Configured.

End App.

(** ** A concrete directory *)

Module Demo.

(** A toy hasher with two parameterizations; "v1$" is the outdated one. *)
Definition hasher_hash (plaintext : string) : string := "v2$" ++ plaintext.

Definition hasher_verify (plaintext h : string) : bool * bool :=
  if String.eqb h ("v2$" ++ plaintext) then (true, false)
  else if String.eqb h ("v1$" ++ plaintext) then (true, true)
  else (false, false).

Definition get_user (ds : list User.t) (identifier : string)
    : option User.t :=
  find (fun u => bool_decide (User.username u = Some identifier)) ds.

Definition store_password (ds : list User.t) (u : User.t) (h : string)
    : option (list User.t) :=
  Some (map (fun v =>
          if Nat.eqb (User.id v) (User.id u)
          then User.mk (User.id v) (User.username v) (Some h)
                 (User.email v) (User.active v)
          else v) ds).

(** A store whose writes always fail. *)
Definition store_fails (ds : list User.t) (u : User.t) (h : string)
    : option (list User.t) := None.

Definition alice : User.t :=
  User.mk 1 (Some "alice") (Some "v2$correct-pw") (Some "alice@example.org")
    (Some true).
Definition carol : User.t :=
  User.mk 2 (Some "carol") (Some "v2$carol-pw") None (Some true).
Definition dave : User.t :=
  User.mk 3 (Some "dave") (Some "v1$dave-pw") None (Some false).
Definition erin : User.t :=
  User.mk 4 (Some "erin") (Some "v1$erin-pw") None (Some true).
Definition frank : User.t :=
  User.mk 5 (Some "frank") None None (Some true).

Definition grace : User.t :=
  User.mk 6 (Some "grace") (Some "v2$grace-pw") None (Some true).

Definition directory : list User.t :=
  [alice; carol; dave; erin; frank; grace].

(** Confirmation is not enabled: the gate holds no account back. *)
Definition requires_confirmation (u : User.t) : bool := false.

(** The settings with confirmation enabled. *)
Definition confirmation_on : App.SecurityConfig :=
  App.mkConfig true false.

(** The settings with confirmation left off, the default. *)
Definition confirmation_off : App.SecurityConfig :=
  App.mkConfig false false.

Definition login := login get_user hasher_verify hasher_hash store_password
  requires_confirmation [] [].

Definition login_result := login_result get_user hasher_verify hasher_hash
  store_password requires_confirmation [] [].

End Demo.

(** ** [run_query] (lines 113-124) *)

Module Query.

(** The values a query argument can hold. *)
Inductive Value : Type :=
  | VNone
  | VBool (b : bool)
  | VInt (z : Z)
  | VStr (s : string).

Definition truthy (v : Value) : bool :=
  match v with
  | VNone => false
  | VBool b => b
  | VInt z => negb (Z.eqb z 0)
  | VStr s => negb (String.eqb s "")
  end.

(** The names app.py binds at module level: its imports, assignments,
    classes and functions, in source order, and the names every module
    carries. *)
Definition module_globals : list string :=
  [ "__name__"; "__doc__"; "__package__"; "__loader__"; "__spec__";
    "__file__"; "__cached__"; "__builtins__";
    "Flask"; "request"; "redirect"; "url_for"; "render_template";
    "session"; "escape"; "g";
    "Form"; "BooleanField"; "StringField"; "PasswordField"; "validators";
    "Required"; "app"; "customconfig"; "SQLAlchemy"; "psycopg2"; "db";
    "flask_table"; "Table"; "Col"; "DebugToolbarExtension"; "toolbar";
    "Security"; "SQLAlchemyUserDatastore"; "UserMixin"; "RoleMixin";
    "login_required"; "RegisterForm"; "LoginForm";
    "verify_and_update_password"; "get_message"; "validate_redirect_url";
    "requires_confirmation"; "bcrypt_sha256"; "click"; "Decimal";
    "datagenerator"; "query";
    "roles_users"; "UserRole"; "User"; "get_db"; "run_query";
    "extendedLoginForm"; "extendedRegisterForm"; "user_datastore";
    "security"; "dont_send_mail_hack"; "security_register_processor";
    "create_admin"; "initdb"; "dbusertest";
    "FloatField"; "IntegerField"; "SelectField"; "SubmitField"; "EmpCreate";
    "profile"; "index"; "UsersTable"; "users_page"; "StoresTable";
    "stores_page"; "EmpTable"; "createEmployee"; "employees_page";
    "ProductsTable"; "products_page"; "redir"; "acknowledgements" ].

(** The names of Python 3's [builtins] module. *)
Definition builtins : list string :=
  [ "abs"; "all"; "any"; "ascii"; "bin"; "bool"; "breakpoint"; "bytearray";
    "bytes"; "callable"; "chr"; "classmethod"; "compile"; "complex";
    "copyright"; "credits"; "delattr"; "dict"; "dir"; "divmod"; "enumerate";
    "eval"; "exec"; "exit"; "filter"; "float"; "format"; "frozenset";
    "getattr"; "globals"; "hasattr"; "hash"; "help"; "hex"; "id"; "input";
    "int"; "isinstance"; "issubclass"; "iter"; "len"; "license"; "list";
    "locals"; "map"; "max"; "memoryview"; "min"; "next"; "object"; "oct";
    "open"; "ord"; "pow"; "print"; "property"; "quit"; "range"; "repr";
    "reversed"; "round"; "set"; "setattr"; "slice"; "sorted";
    "staticmethod"; "str"; "sum"; "super"; "tuple"; "type"; "vars"; "zip";
    "__import__"; "__build_class__"; "__debug__";
    "True"; "False"; "None"; "Ellipsis"; "NotImplemented";
    "ArithmeticError"; "AssertionError"; "AttributeError"; "BaseException";
    "BlockingIOError"; "BrokenPipeError"; "BufferError"; "BytesWarning";
    "ChildProcessError"; "ConnectionAbortedError"; "ConnectionError";
    "ConnectionRefusedError"; "ConnectionResetError"; "DeprecationWarning";
    "EOFError"; "EnvironmentError"; "Exception"; "FileExistsError";
    "FileNotFoundError"; "FloatingPointError"; "FutureWarning";
    "GeneratorExit"; "IOError"; "ImportError"; "ImportWarning";
    "IndentationError"; "IndexError"; "InterruptedError";
    "IsADirectoryError"; "KeyError"; "KeyboardInterrupt"; "LookupError";
    "MemoryError"; "ModuleNotFoundError"; "NameError"; "NotADirectoryError";
    "NotImplementedError"; "OSError"; "OverflowError";
    "PendingDeprecationWarning"; "PermissionError"; "ProcessLookupError";
    "RecursionError"; "ReferenceError"; "ResourceWarning"; "RuntimeError";
    "RuntimeWarning"; "StopAsyncIteration"; "StopIteration"; "SyntaxError";
    "SyntaxWarning"; "SystemError"; "SystemExit"; "TabError";
    "TimeoutError"; "TypeError"; "UnboundLocalError"; "UnicodeDecodeError";
    "UnicodeEncodeError"; "UnicodeError"; "UnicodeTranslateError";
    "UnicodeWarning"; "UserWarning"; "ValueError"; "Warning";
    "ZeroDivisionError" ].

(** The names [run_query] assigns, which are local to it. *)
Definition run_query_locals : list string :=
  [ "query_type"; "args"; "conn"; "cur"; "rows"; "row"; "i"; "value" ].

Inductive Scope : Type := Local | Global | Builtin.

(** Name resolution inside the body of [run_query]. *)
Definition resolve (name : string) : outcome Scope :=
  if bool_decide (name ∈ run_query_locals) then Returned Local
  else if bool_decide (name ∈ module_globals) then Returned Global
  else if bool_decide (name ∈ builtins) then Returned Builtin
  else Raised (NameError name).

(** What the database sees. *)
Inductive DbEvent : Type :=
  | Connect
  | Execute (statement : string) (args : gmap string Value)
  | FetchAll.

(** Column names and rows. *)
Definition QueryResult : Type := list string * list (list Value).

Section RunQuery.

(** Lines 116-124 once a connection is at hand: psycopg2 runs the statement
    stored under [query_type] with the cleaned arguments. *)
Variable with_connection :
  string -> gmap string Value -> outcome QueryResult * list DbEvent.

Definition run_query (query_type : string) (args : gmap string Value)
    : outcome QueryResult * list DbEvent :=
  let args := (fun v => if truthy v then v else VNone) <$> args in
  match resolve "getdb" with
  | Raised e => (Raised e, [])
  | Returned _ => with_connection query_type args
  end.

End RunQuery.

End Query.

(** ** Table queries and report pages (lines 318-839) *)

Module Tables.

(** How a query or a page can fail: the two Python errors of subscripting
    a missing row, a missing class attribute, and the SQLAlchemy errors of
    [connect] and [execute] with their message. *)
Inductive Error : Type :=
  | TypeError
  | IndexError
  | AttributeError (name : string)
  | ConnectError (msg : string)
  | ExecuteError (msg : string).

Inductive res (A : Type) : Type :=
  | Ok (a : A)
  | Err (e : Error).
Arguments Ok {A} a.
Arguments Err {A} e.

(** What the engine sees. *)
Inductive Event : Type :=
  | Connect
  | Execute (statement : string)
  | Close.

(** ['...{0}...'.format(arg)] for the templates of this file, whose only
    replacement field is [{0}]. *)
Fixpoint format0 (template arg : string) : string :=
  match template with
  | EmptyString => EmptyString
  | String "{" (String "0" (String "}" rest)) => arg ++ format0 rest arg
  | String c rest => String c (format0 rest arg)
  end.

(** A query method of a table class.  All of them have the same four
    lines (connect, execute, close, return) and differ in three things:
    whether they take an argument, the statement template, and whether
    the result is reduced by [.first()[0]]. *)
Record Getter : Type := mkGetter {
  takes_arg : bool;
  template : string;
  scalar : bool
}.

(** The statement a getter sends. *)
Definition statement (g : Getter) (arg : option string) : string :=
  match arg with
  | Some a => format0 (template g) a
  | None => template g
  end.

(** What a class body binds a name to. *)
Inductive Attr : Type :=
  | Classes
  | Column (label : string)
  | Method (g : Getter).

Definition rows_of (t : string) : Attr := Method (mkGetter false t false).
Definition rows_by (t : string) : Attr := Method (mkGetter true t false).
Definition value_of (t : string) : Attr := Method (mkGetter false t true).
Definition value_by (t : string) : Attr := Method (mkGetter true t true).

(** The class bodies, binding by binding, in source order. *)
Definition UsersTable : list (string * Attr) :=
  [ ("classes", Classes);
    ("id", Column "id"); ("username", Column "username");
    ("password", Column "password"); ("email", Column "email");
    ("active", Column "active");
    ("getUsers", rows_of "SELECT * FROM flask_security_user;") ].

Definition StoresTable : list (string * Attr) :=
  [ ("classes", Classes);
    ("sid", Column "sid"); ("address", Column "address");
    ("city", Column "city"); ("state", Column "state");
    ("zip", Column "zip"); ("telno", Column "telno");
    ("getStores", rows_of "SELECT * FROM stores;");
    ("getStoresZip", rows_by "SELECT * FROM getStoresZip('{0}');");
    ("getStoresCity", rows_by "SELECT * FROM getStoresCity('{0}');");
    ("getStoresState", rows_by "SELECT * FROM getStoresState('{0}');");
    ("getStoresID", rows_by "SELECT * FROM getStoresID({0});");
    ("getAvgSalAll", value_of "SELECT * FROM getAvgSalAll();");
    ("getAvgHrlyAll", value_of "SELECT * FROM getAvgHrlyAll();");
    ("getAvgSalZip", value_by "SELECT * FROM avg_sal_zip('{0}');");
    ("getAvgHrlyZip", value_by "SELECT * FROM avg_hourly_zip('{0}');");
    ("getAvgSalCity", value_by "SELECT * FROM avg_sal_city('{0}');");
    ("getAvgHrlyCity", value_by "SELECT * FROM avg_hourly_city('{0})';");
    ("getAvgSalState", value_by "SELECT * FROM avg_sal_state('{0}');");
    ("getAvgHrlyState", value_by "SELECT * FROM avg_hourly_state('{0}');");
    ("getNumEmps", value_of "SELECT * FROM getNumEmps();");
    ("getNumEmpsStore", value_by "SELECT * FROM getNumEmpsStore({0});");
    ("getNumEmpsZip", value_by "SELECT * FROM getNumEmpsZip('{0}');");
    ("getNumEmpsCity", value_by "SELECT * FROM getNumEmpsCity('{0}');");
    ("getNumEmpsState", value_by "SELECT * FROM getNumEmpsState('{0}');") ].

Definition EmpTable : list (string * Attr) :=
  [ ("classes", Classes);
    ("eid", Column "eid"); ("firstname", Column "firstname");
    ("lastname", Column "lastname"); ("hourly", Column "hourly");
    ("pay", Column "pay"); ("roleid", Column "roleid");
    ("sid", Column "sid");
    ("getEmployees",
     rows_of "SELECT * FROM employees NATURAL JOIN employment order by eid;");
    ("getEmployeesZip", rows_by "SELECT * FROM getEmpZip('{0}');");
    ("getEmployeesCity", rows_by "SELECT * FROM getEmpCity('{0}');");
    ("getEmployeesState", rows_by "SELECT * FROM getEmpState('{0}');");
    ("getEmployeesStore", rows_by "SELECT * FROM getEmpStore({0});");
    ("getAvgSalAll", value_of "SELECT * FROM getAvgSalAll();");
    ("getAvgHrlyAll", value_of "SELECT * FROM getAvgHrlyAll();");
    ("getAvgSalZip", value_by "SELECT * FROM avg_sal_zip('{0}');");
    ("getAvgHrlyZip", value_by "SELECT * FROM avg_hourly_zip('{0}');");
    ("getAvgSalCity", value_by "SELECT * FROM avg_sal_city('{0}');");
    ("getAvgHrlyCity", value_by "SELECT * FROM avg_hourly_city('{0})';");
    ("getAvgSalState", value_by "SELECT * FROM avg_sal_state('{0}');");
    ("getAvgHrlyState", value_by "SELECT * FROM avg_hourly_state('{0}');") ].

Definition ProductsTable : list (string * Attr) :=
  [ ("classes", Classes);
    ("pid", Column "pid"); ("name", Column "name");
    ("color", Column "color"); ("sid", Column "sid");
    ("getProducts", rows_of "SELECT * FROM getProds();");
    ("getProductStore", rows_by "SELECT * FROM getProdStore({0});");
    ("getProductsZip", rows_by "Select * FROM getProdZip('{0}');");
    ("getProductsZip", rows_by "Select * FROM getProdCity('{0}');");
    ("getProductsZip", rows_by "Select * FROM getProdState('{0}');");
    ("getAvgPrice", value_of "SELECT * FROM getAvgPrice();");
    ("getAvgPriceZip", value_by "SELECT * FROM getAvgPriceZip('{0}');");
    ("getAvgPriceCity", value_by "SELECT * FROM getAvgPriceCity('{0}');");
    ("getAvgPriceState", value_by "SELECT * FROM getAvgPriceState('{0}');");
    ("getAvgPriceStore", value_by "SELECT * FROM getAvgPriceStore({0});");
    ("getNumProducts", value_of "SELECT * FROM getNumProds();");
    ("getNumProductsStore", value_by "SELECT * FROM getNumProdsStore({0});");
    ("getNumProductsZip", value_by "SELECT * FROM getNumProdsZip('{0}');");
    ("getNumProductsCity", value_by "SELECT * FROM getNumProdsCity('{0}');");
    ("getNumProductsState",
     value_by "SELECT * FROM getNumProdsState('{0}');");
    ("getNumSale", value_of "SELECT * FROM getNumSale();");
    ("getNumSaleStore", value_by "SELECT * FROM getNumSaleStore({0});");
    ("getNumSaleZip", value_by "SELECT * FROM getNumSaleZip('{0}');");
    ("getNumSaleCity", value_by "SELECT * FROM getNumSaleCity('{0}');");
    ("getNumSaleState", value_by "SELECT * FROM getNumSaleState('{0}');") ].

(** Attribute lookup in a class body: the last binding of a name is the
    one that stays.  What the classes inherit from [flask_table.Table] is
    not listed; none of it is a query method. *)
Definition class_getattr (body : list (string * Attr)) (name : string)
    : option Attr :=
  match List.find (fun b => String.eqb b.1 name) (rev body) with
  | Some b => Some b.2
  | None => None
  end.

(** The getters a class body defines, overridden ones included. *)
Definition getters (body : list (string * Attr)) : list (string * Getter) :=
  omap (fun b => match b.2 with Method g => Some (b.1, g) | _ => None end)
    body.

Definition all_getters : list (string * Getter) :=
  (getters UsersTable ++ getters StoresTable ++ getters EmpTable
   ++ getters ProductsTable)%list.

(** A scan of a statement for what lies outside its string literals: a
    quote opens or closes a literal, and parentheses count only outside
    one.  The state is (inside a literal, open parentheses). *)
Fixpoint scan (s : string) (st : bool * Z) : bool * Z :=
  match s with
  | EmptyString => st
  | String c r =>
      scan r
        (if Ascii.eqb c "'" then (negb st.1, st.2)
         else if st.1 then st
         else if Ascii.eqb c "(" then (false, (st.2 + 1)%Z)
         else if Ascii.eqb c ")" then (false, (st.2 - 1)%Z)
         else st)
  end.

(** Whether the statement ends inside a string literal. *)
Definition ends_in_literal (s : string) : bool := (scan s (false, 0%Z)).1.

(** The parentheses left open outside string literals. *)
Definition open_parens (s : string) : Z := (scan s (false, 0%Z)).2.

(** Whether a string holds none of the given characters. *)
Fixpoint free_of (cs : list ascii) (s : string) : bool :=
  match s with
  | EmptyString => true
  | String c r => negb (bool_decide (c ∈ cs)) && free_of cs r
  end.

Section Engine.

(** A result cell, and a row, which has at least one column. *)
Variable Cell : Type.

Definition Row : Type := Cell * list Cell.

(** The database as the code meets it.  Both answers may depend on what
    the engine has seen so far. *)
Record Backend : Type := mkBackend {
  (** [db.engine.connect()]: [Some msg] when it raises *)
  connect : list Event -> option string;
  (** [conn.execute(statement)]: the rows, or the message it raises with *)
  execute : list Event -> string -> string + list Row
}.

Variable be : Backend.

Definition M (A : Type) : Type := list Event -> res A * list Event.

Definition ret {A} (a : A) : M A := fun t => (Ok a, t).

Definition bind {A B} (m : M A) (k : A -> M B) : M B := fun t =>
  match m t with
  | (Ok a, t') => k a t'
  | (Err e, t') => (Err e, t')
  end.

Definition raise {A} (e : Error) : M A := fun t => (Err e, t).

Notation "x <- m ;; k" := (bind m (fun x => k))
  (at level 100, m at next level, right associativity).
Notation "m ;;; k" := (bind m (fun _ => k))
  (at level 100, right associativity).

Definition engine_connect : M unit := fun t =>
  match connect be t with
  | Some msg => (Err (ConnectError msg), t)
  | None => (Ok tt, (t ++ [Connect])%list)
  end.

Definition conn_execute (stmt : string) : M (list Row) := fun t =>
  match execute be t stmt with
  | inl msg => (Err (ExecuteError msg), (t ++ [Execute stmt])%list)
  | inr rows => (Ok rows, (t ++ [Execute stmt])%list)
  end.

Definition conn_close : M unit := fun t => (Ok tt, (t ++ [Close])%list).

(** [result.first()[0]] *)
Definition first_0 (rows : list Row) : M Cell :=
  match rows with
  | [] => raise TypeError
  | r :: _ => ret r.1
  end.

(** [result.fetchall()[0][0]] *)
Definition fetchall_0_0 (rows : list Row) : M Cell :=
  match rows with
  | [] => raise IndexError
  | r :: _ => ret r.1
  end.

(** What a getter hands back. *)
Inductive Value : Type :=
  | Rows (rows : list Row)
  | Scalar (c : Cell).

(** The body every getter shares: connect, execute, (take the first
    column of the first row,) close, return. *)
Definition run_getter (g : Getter) (arg : option string) : M Value :=
  engine_connect ;;;
  result <- conn_execute (statement g arg) ;;
  if scalar g then
    c <- first_0 result ;;
    conn_close ;;;
    ret (Scalar c)
  else
    conn_close ;;;
    ret (Rows result).

(** [Class.name(arg)] or [Class.name()]. *)
Definition call (body : list (string * Attr)) (name : string)
    (arg : option string) : M Value :=
  match class_getattr body name with
  | None => raise (AttributeError name)
  | Some (Method g) =>
      if Bool.eqb (takes_arg g) (bool_decide (is_Some arg))
      then run_getter g arg
      else raise TypeError
  | Some _ => raise TypeError
  end.

(** What [render_template] is given. *)
Inductive Ctx : Type :=
  | CValue (v : Value)
  | CStr (s : string).

Record Response : Type := mkResponse {
  page_template : string;
  context : list (string * Ctx)
}.

Definition render_template (name : string) (ctx : list (string * Ctx))
    : M Response :=
  ret (mkResponse name ctx).

(** The view functions, as they run once [login_required] has let the
    request through. *)

(** Lines 336-350 *)
Definition users_page : M Response :=
  usersTable <- call UsersTable "getUsers" None ;;
  engine_connect ;;;
  r1 <- conn_execute "SELECT COUNT(id) FROM flask_security_user;" ;;
  numUsers <- fetchall_0_0 r1 ;;
  r2 <- conn_execute "SELECT * FROM getNumFlaskAdmins();" ;;
  numAdmins <- fetchall_0_0 r2 ;;
  conn_close ;;;
  render_template "users.html"
    [ ("usersTable", CValue usersTable);
      ("userCount", CValue (Scalar numUsers));
      ("admCount", CValue (Scalar numAdmins)) ].

(** Lines 501-518 *)
Definition stores_page : M Response :=
  storesTable <- call StoresTable "getStores" None ;;
  avg_sal <- call StoresTable "getAvgSalAll" None ;;
  avg_hrly <- call StoresTable "getAvgHrlyAll" None ;;
  numEmps <- call StoresTable "getNumEmps" None ;;
  render_template "stores.html"
    [ ("storesTable", CValue storesTable); ("avg_sal", CValue avg_sal);
      ("avg_hrly", CValue avg_hrly); ("numEmps", CValue numEmps) ].

(** Lines 645-678 *)
Definition employees_page : M Response :=
  let avg_sal_str := "Average Salary Pay:" in
  let avg_hourly_str := "Average Hourly Pay:" in
  let sal_dev := "Standard Deviation, Salary:" in
  let hrly_dev := "Standard Deviation, Hourly:" in
  avg_sal <- call EmpTable "getAvgSalAll" None ;;
  avg_hrly <- call EmpTable "getAvgHrlyAll" None ;;
  empTable <- call EmpTable "getEmployees" None ;;
  render_template "employees.html"
    [ ("avg_sal_str", CStr avg_sal_str);
      ("avg_hourly_str", CStr avg_hourly_str);
      ("sal_dev", CStr sal_dev); ("hrly_dev", CStr hrly_dev);
      ("empTable", CValue empTable); ("avg_sal", CValue avg_sal);
      ("avg_hrly", CValue avg_hrly) ].

(** Lines 821-839 *)
Definition products_page : M Response :=
  productsTable <- call ProductsTable "getProducts" None ;;
  avgPrice <- call ProductsTable "getAvgPrice" None ;;
  numProducts <- call ProductsTable "getNumProducts" None ;;
  numSale <- call ProductsTable "getNumSale" None ;;
  render_template "products.html"
    [ ("productsTable", CValue productsTable);
      ("avgPrice", CValue avgPrice);
      ("numProducts", CValue numProducts); ("numSale", CValue numSale) ].

End Engine.

Arguments connect {Cell} b t.
Arguments execute {Cell} b t stmt.
Arguments mkBackend {Cell} connect execute.
Arguments Rows {Cell} rows.
Arguments Scalar {Cell} c.

(** The connections opened and not closed. *)
Definition open_connections (t : list Event) : Z :=
  fold_left
    (fun n e => match e with
                | Connect => (n + 1)%Z
                | Close => (n - 1)%Z
                | Execute _ => n
                end) t 0%Z.

(** The statements sent, in order. *)
Definition statements_of (t : list Event) : list string :=
  omap (fun e => match e with Execute s => Some s | _ => None end) t.

End Tables.

(** Two concrete engines over numeric cells. *)
Module TablesDemo.

(** An engine that connects and finds no row. *)
Definition empty_backend : Tables.Backend nat :=
  Tables.mkBackend (fun _ => None) (fun _ _ => inr []).

(** An engine that connects and answers every statement with one row. *)
Definition answering_backend : Tables.Backend nat :=
  Tables.mkBackend (fun _ => None) (fun _ _ => inr [(7%nat, [])]).

End TablesDemo.

(** ** The employee form (lines 277-290) *)

Module EmpForm.

Section Form.

(** The floats a [FloatField] parses, of which only truthiness matters
    here. *)
Variable Float : Type.
Variable float_truthy : Float -> bool.

(** The data of each field once WTForms has processed the submission:
    [None] where a value is absent or did not parse. *)
Record EmpCreate : Type := mkEmpCreate {
  firstname : option string;
  lastname : option string;
  hourly : bool;
  pay : option Float;
  roleid : option string;
  sid : option Z;
  submit : bool
}.

(** The choices of [roleid] (lines 286-287), value and label. *)
Definition roleid_choices : list (string * string) :=
  [ ("1", "Cashier"); ("2", "Manager"); ("3", "Stocker");
    ("4", "Human Resources"); ("5", "Information Technology") ].

(** [Required()] asks for truthy data and, of a string, for more than
    whitespace. *)
Definition required_str (d : option string) : bool :=
  match d with
  | Some s => negb (String.eqb (strip s) "")
  | None => false
  end.

Definition required_float (d : option Float) : bool :=
  match d with
  | Some f => float_truthy f
  | None => false
  end.

Definition required_int (d : option Z) : bool :=
  match d with
  | Some z => negb (Z.eqb z 0)
  | None => false
  end.

(** The errors of a field whose only validation is [Required()]. *)
Definition required_errors (passes : bool) : list string :=
  if passes then [] else ["This field is required."].

(** [SelectField]: [pre_validate] records a value that is no choice, then
    [Required()] runs, replacing the errors when the data is blank. *)
Definition roleid_errors (d : option string) : list string :=
  let pre :=
    if bool_decide (d ∈ map (fun c => Some c.1) roleid_choices) then []
    else ["Not a valid choice"] in
  if required_str d then pre else ["This field is required."].

(** [form.errors] after [validate()], field by field in declaration
    order; [submit] has no validator. *)
Definition errors (f : EmpCreate) : list (string * list string) :=
  filter (fun p => p.2 ≠ [])
    [ ("firstname", required_errors (required_str (firstname f)));
      ("lastname", required_errors (required_str (lastname f)));
      ("hourly", required_errors (hourly f));
      ("pay", required_errors (required_float (pay f)));
      ("roleid", roleid_errors (roleid f));
      ("sid", required_errors (required_int (sid f)));
      ("submit", []) ].

(** [EmpCreate.validate()], inherited from [wtforms.Form]. *)
Definition validate (f : EmpCreate) : bool :=
  bool_decide (errors f = []).

End Form.

End EmpForm.

(** ** Loading the generated users (lines 247-257 of [initdb]) *)

Module InitDb.

Inductive Error : Type :=
  | KeyError (key : string).

Inductive Event : Type :=
  | CreateUser (username email password : string) (active : bool)
  | Commit
  | Print (line : string).

(** [{k:v for k,v in zip(user_fields, user)}]: [zip] stops at the shorter
    list, and a later pair overrides an earlier one with the same key. *)
Definition userdict (user_fields user : list string) : gmap string string :=
  list_to_map (reverse (zip user_fields user)).





End InitDb.

(** * Properties *)

Arguments strip : simpl never.
Arguments Form_errors : simpl never.

(** ** Field errors *)

Lemma User_has_no_errors_attribute :
  bool_decide ("errors" ∈ User.attributes) = false.
Proof. reflexivity. Qed.

Lemma Form_errors_nil_inv f :
  Form_errors f = [] ->
  errors (username f) = [] /\ errors (password f) = [] /\
  filter (fun p : string * list string => p.2 ≠ [])
    (map (fun p => (p.1, errors p.2)) (inherited f)) = [].
Proof.
  unfold Form_errors. intros H. rewrite !filter_cons in H. cbn [snd] in H.
  destruct (decide (errors (username f) ≠ [])) as [|Hu]; [discriminate|].
  destruct (decide (errors (password f) ≠ [])) as [|Hp]; [discriminate|].
  apply dec_stable in Hu. apply dec_stable in Hp. auto.
Qed.

Lemma Form_errors_username_append f msg u :
  Form_errors f = [] ->
  Form_errors {| username := append_error msg (username f);
                 password := password f;
                 inherited := inherited f;
                 user := u |} = [("username", [msg])].
Proof.
  intros H. destruct (Form_errors_nil_inv f H) as (Hu & Hp & Hi).
  unfold Form_errors. cbn [username password inherited append_error errors].
  rewrite !filter_cons. cbn [snd]. rewrite Hu, Hp, Hi. reflexivity.
Qed.

Lemma Form_errors_password_append f msg u :
  Form_errors f = [] ->
  Form_errors {| username := username f;
                 password := append_error msg (password f);
                 inherited := inherited f;
                 user := u |} = [("password", [msg])].
Proof.
  intros H. destruct (Form_errors_nil_inv f H) as (Hu & Hp & Hi).
  unfold Form_errors. cbn [username password inherited append_error errors].
  rewrite !filter_cons. cbn [snd]. rewrite Hu, Hp, Hi. reflexivity.
Qed.

Lemma Form_errors_set_user f u :
  Form_errors {| username := username f; password := password f;
                 inherited := inherited f; user := u |} = Form_errors f.
Proof. reflexivity. Qed.

Lemma Form_errors_username f :
  errors (username f) ≠ [] ->
  ("username", errors (username f)) ∈ Form_errors f.
Proof.
  intros H. unfold Form_errors. rewrite filter_cons. cbn [snd].
  destruct (decide (errors (username f) ≠ [])) as [_|N]; [|contradiction].
  apply list_elem_of_here.
Qed.

(** ** Reading a run of [validate] *)

Section Facts.

Context {Datastore : Type}.
Variable get_user : Datastore -> string -> option User.t.
Variable hasher_verify : string -> string -> bool * bool.
Variable hasher_hash : string -> string.
Variable store_password : Datastore -> User.t -> string -> option Datastore.
Variable requires_confirmation : User.t -> bool.
Variable password_validators : list Validator.
Variable inherited_fields : list (string * Field).

Abbreviation run :=
  (login get_user hasher_verify hasher_hash store_password
     requires_confirmation password_validators inherited_fields).
Abbreviation result :=
  (login_result get_user hasher_verify hasher_hash store_password
     requires_confirmation password_validators inherited_fields).
Abbreviation checked := (validated password_validators inherited_fields).
Abbreviation valid := (fields_valid password_validators inherited_fields).
Abbreviation ok := (check_ok get_user hasher_verify requires_confirmation).
Abbreviation failing :=
  (first_failure get_user hasher_verify requires_confirmation).
Abbreviation gets_to :=
  (reaches get_user hasher_verify requires_confirmation password_validators
     inherited_fields).

Lemma validated_username_data i s : data (username (checked i s)) = i.
Proof. reflexivity. Qed.

Lemma validated_password_data i s : data (password (checked i s)) = s.
Proof. reflexivity. Qed.

Lemma fields_valid_true i s :
  valid i s = true -> Form_errors (checked i s) = [].
Proof. unfold fields_valid. intros H. apply bool_decide_eq_true in H. exact H. Qed.

Lemma fields_valid_false i s :
  valid i s = false -> Form_errors (checked i s) ≠ [].
Proof. unfold fields_valid. intros H. apply bool_decide_eq_false in H. exact H. Qed.

(** [Required] turns a blank identifier away at line 137 already. *)
Lemma Required_blank i s :
  String.eqb (strip i) "" = true ->
  errors (username (checked i s)) = ["This field is required."].
Proof.
  intros H. cbn. unfold Required. rewrite H. reflexivity.
Qed.

Lemma blank_identifier_invalid i s :
  String.eqb (strip i) "" = true -> valid i s = false.
Proof.
  intros H. unfold fields_valid. apply bool_decide_eq_false. intros E.
  apply Form_errors_nil_inv in E. destruct E as (E & _).
  rewrite (Required_blank i s H) in E. discriminate.
Qed.

Lemma fields_valid_identifier i s :
  valid i s = true -> String.eqb (strip i) "" = false.
Proof.
  intros H. destruct (String.eqb (strip i) "") eqn:E; [|reflexivity].
  rewrite (blank_identifier_invalid i s E) in H. discriminate.
Qed.

Ltac unfold_validate :=
  cbv beta iota zeta delta
    [login validate bind ret raise emit get_self set_self Form_validate
     username_errors_append password_errors_append set_user
     datastore_get_user User_getattr_errors verify_and_update_password];
  cbn [self datastore trace];
  match goal with
  | |- context [extendedLoginForm _ _ ?i ?s] =>
      fold (checked i s); fold (valid i s)
  end.

Ltac split_run :=
  repeat (first
    [ progress cbn [self datastore trace username password inherited user
                    fst snd negb app andb]
    | rewrite User_has_no_errors_attribute
    | rewrite validated_username_data
    | rewrite validated_password_data
    | match goal with
      | |- context [fields_valid _ _ ?i ?s] =>
          destruct (valid i s) eqn:?
      | |- context [String.eqb (strip ?x) ""] =>
          destruct (String.eqb (strip x) "") eqn:?
      | |- context [get_user ?d ?x] => destruct (get_user d x) eqn:?
      | |- context [truthy_str ?x] => destruct (truthy_str x) eqn:?
      | |- context [hasher_verify ?a ?b] =>
          destruct (hasher_verify a b) as [[] []] eqn:?
      | |- context [store_password ?a ?b ?c] =>
          destruct (store_password a b c) eqn:?
      | |- context [requires_confirmation ?u] =>
          destruct (requires_confirmation u) eqn:?
      | |- context [truthy_bool ?x] => destruct (truthy_bool x) eqn:?
      end ]).

Ltac use_eqs :=
  repeat match goal with
         | H : ?l = _ |- context [?l] => rewrite H
         end.

Ltac read_checks :=
  unfold first_failure, check_order;
  cbn [List.find check_ok negb];
  repeat (progress (use_eqs; cbn [List.find check_ok negb fst snd])).

Ltac read_reaches :=
  unfold reaches;
  repeat match goal with
         | |- context [before ?c] =>
             let l := eval vm_compute in (before c) in
             change (before c) with l
         end;
  cbn [forallb check_ok negb andb];
  repeat (progress (use_eqs; cbn [forallb check_ok negb andb fst snd])).

(** How [validate] ends: [False] from line 138, [True] when no check
    fails, [False] at a failing check, except that a failing confirmation
    gate ends in the AttributeError of line 172. *)
Lemma run_outcome ds i s :
  (run ds i s).1 =
    if negb (valid i s) then Returned false
    else match failing ds i s with
         | None => Returned true
         | Some ConfirmationGate => Raised (AttributeError "User" "errors")
         | Some _ => Returned false
         end.
Proof.
  unfold_validate. split_run; read_checks; reflexivity.
Qed.

Lemma run_checks ds i s :
  checks_of (trace (run ds i s).2) =
    if valid i s then
      match failing ds i s with
      | None => check_order
      | Some c => take_through c check_order
      end
    else [].
Proof.
  unfold_validate. split_run; read_checks; reflexivity.
Qed.

(** Nothing is traced after a failing check. *)
Lemma run_stops ds i s c :
  valid i s = true -> failing ds i s = Some c ->
  last (trace (run ds i s).2) = Some (EvCheck c).
Proof.
  unfold_validate. split_run; read_checks; intros V F;
    try discriminate; inversion F; reflexivity.
Qed.

Lemma run_lookups ds i s :
  lookups_of (trace (run ds i s).2) =
    if gets_to ds i s IdentityResolution then [i] else [].
Proof.
  unfold_validate. split_run; read_reaches; reflexivity.
Qed.

Lemma run_user ds i s :
  user (self (run ds i s).2) =
    if gets_to ds i s IdentityResolution then get_user ds i else None.
Proof.
  unfold_validate. split_run; read_reaches; reflexivity.
Qed.

Lemma run_rehashes ds i s :
  rehashes_of (trace (run ds i s).2) =
    if gets_to ds i s SecretVerification then
      match get_user ds i with
      | Some u =>
          let '(matched, needs_rehash) :=
            hasher_verify s (default "" (User.password u)) in
          if matched && needs_rehash then [(s, u)] else []
      | None => []
      end
    else [].
Proof.
  unfold_validate. split_run; read_reaches; reflexivity.
Qed.

Lemma run_errors ds i s :
  Form_errors (self (run ds i s).2) =
    if valid i s then
      match failing ds i s with
      | None => []
      | Some c => failure_report c
      end
    else Form_errors (checked i s).
Proof.
  unfold_validate. split_run; read_checks; cbn [failure_report];
    try reflexivity;
    match goal with
    | H : fields_valid _ _ _ _ = true |- _ => apply fields_valid_true in H
    end;
    first [ apply Form_errors_username_append; assumption
          | apply Form_errors_password_append; assumption
          | rewrite Form_errors_set_user; assumption ].
Qed.

(** The result of a login attempt, in one piece. *)
Lemma result_eq ds i s :
  result ds i s =
    match (run ds i s).1 with
    | Returned b =>
        Returned
          {| succeeded := b;
             fieldErrors :=
               if valid i s then
                 match failing ds i s with
                 | None => []
                 | Some c => failure_report c
                 end
               else Form_errors (checked i s);
             resolvedAccount :=
               if gets_to ds i s IdentityResolution then get_user ds i
               else None |}
    | Raised e => Raised e
    end.
Proof.
  unfold login_result, result_of.
  rewrite run_errors, run_user. reflexivity.
Qed.

(** ** The claims about [validate] *)

Ltac settle :=
  rewrite ?result_eq, ?run_outcome, ?run_lookups, ?run_rehashes;
  read_checks; read_reaches; cbn [failure_report].

(** C1, as amended: an unknown identifier and a known identifier with a
    wrong secret are reported with the same message text, the first on the
    identifier field ([username]), the second on the secret field
    ([password]). *)
Theorem generic_error_same_text_on_separate_fields ds i1 s1 i2 s2 u :
  valid i1 s1 = true -> String.eqb (strip s1) "" = false ->
  get_user ds i1 = None ->
  valid i2 s2 = true -> String.eqb (strip s2) "" = false ->
  get_user ds i2 = Some u ->
  truthy_str (User.password u) = true ->
  (hasher_verify s2 (default "" (User.password u))).1 = false ->
  exists msg,
    result ds i1 s1 =
      Returned {| succeeded := false;
                  fieldErrors := [("username", [msg])];
                  resolvedAccount := None |}
    /\ result ds i2 s2 =
      Returned {| succeeded := false;
                  fieldErrors := [("password", [msg])];
                  resolvedAccount := Some u |}.
Proof.
  intros V1 S1 G1 V2 S2 G2 P2 H2.
  pose proof (fields_valid_identifier _ _ V1) as I1.
  pose proof (fields_valid_identifier _ _ V2) as I2.
  exists "INCORRECT USERNAME/PASSWORD". split; settle; reflexivity.
Qed.

(** When no account that the identifier resolves to has a confirmation
    pending, [validate] returns a boolean. *)
Lemma validate_returns_unless_confirmation_pending ds i s :
  (forall u, get_user ds i = Some u -> requires_confirmation u = false) ->
  exists b, (run ds i s).1 = Returned b.
Proof.
  intros H. rewrite run_outcome.
  destruct (valid i s); cbn [negb]; [|eauto].
  unfold first_failure, check_order. cbn [List.find check_ok].
  destruct (get_user ds i) as [u|] eqn:G.
  - rewrite (H u eq_refl). cbn [negb].
    repeat match goal with
           | |- context [if ?b then _ else _] => destruct b
           end; eauto.
  - repeat match goal with
           | |- context [if ?b then _ else _] => destruct b
           end; eauto.
Qed.

(** C3, as amended: a successful validation has resolved an account; the
    resolved account is the one the directory returned as soon as the
    lookup of line 153 has run, whatever happens afterwards, and is absent
    only when validation ended before the lookup or the lookup found
    nothing. *)
Theorem resolvedAccount_set_by_lookup ds i s r :
  result ds i s = Returned r ->
  (succeeded r = true -> resolvedAccount r <> None)
  /\ resolvedAccount r =
       if valid i s && negb (String.eqb (strip i) "")
          && negb (String.eqb (strip s) "")
       then get_user ds i else None.
Proof.
  rewrite result_eq, run_outcome. unfold reaches.
  change (before IdentityResolution)
    with [IdentifierPresence; SecretPresence].
  cbn [forallb check_ok]. rewrite andb_true_r, andb_assoc.
  unfold first_failure, check_order. cbn [List.find check_ok].
  destruct (valid i s); cbn [negb andb].
  - destruct (String.eqb (strip i) ""); cbn [negb andb].
    { intros H; inversion H; subst; cbn. split; [discriminate|reflexivity]. }
    destruct (String.eqb (strip s) ""); cbn [negb andb].
    { intros H; inversion H; subst; cbn. split; [discriminate|reflexivity]. }
    destruct (get_user ds i) as [u|]; cbn [negb].
    + intros H. assert (resolvedAccount r = Some u) as E.
      { repeat match type of H with
               | context [if ?b then _ else _] => destruct b
               end; inversion H; reflexivity. }
      rewrite E. split; [discriminate|reflexivity].
    + intros H; inversion H; subst; cbn. split; [discriminate|reflexivity].
  - intros H; inversion H; subst; cbn. split; [discriminate|reflexivity].
Qed.

(** C5: a blank identifier (empty or whitespace only) gives a failed result
    with an error on the identifier field, and the directory is not looked
    up at all. *)
Theorem blank_identifier_fails_without_lookup ds i s :
  strip i = "" ->
  exists r,
    result ds i s = Returned r
    /\ succeeded r = false
    /\ (exists msg, error_on "username" msg r)
    /\ lookups_of (trace (run ds i s).2) = [].
Proof.
  intros B. assert (String.eqb (strip i) "" = true) as E
    by (rewrite B; reflexivity).
  pose proof (blank_identifier_invalid i s E) as V.
  eexists. split; [|split; [|split]].
  - settle. reflexivity.
  - reflexivity.
  - exists "This field is required.". unfold error_on. cbn [fieldErrors].
    exists (errors (username (checked i s))). split.
    + apply Form_errors_username. rewrite (Required_blank i s E). discriminate.
    + rewrite (Required_blank i s E). apply list_elem_of_here.
  - settle. reflexivity.
Qed.

(** The checks of lines 142-176 run in the fixed order and stop with the
    first one that fails: nothing is traced after it, and [validate] ends
    there with [False], or, at the confirmation gate, with the
    AttributeError of line 172. *)
Lemma checks_run_in_order_until_first_failure ds i s :
  if valid i s then
    match failing ds i s with
    | None =>
        checks_of (trace (run ds i s).2) = check_order
        /\ (run ds i s).1 = Returned true
    | Some c =>
        checks_of (trace (run ds i s).2) = take_through c check_order
        /\ last (trace (run ds i s).2) = Some (EvCheck c)
        /\ (run ds i s).1 =
             if decide (c = ConfirmationGate)
             then Raised (AttributeError "User" "errors")
             else Returned false
    end
  else
    checks_of (trace (run ds i s).2) = []
    /\ (run ds i s).1 = Returned false.
Proof.
  rewrite run_checks, run_outcome.
  destruct (valid i s) eqn:V; cbn [negb]; [|auto].
  destruct (failing ds i s) as [c|] eqn:F; [|auto].
  split; [reflexivity|]. split; [apply run_stops; assumption|].
  destruct c; reflexivity.
Qed.

(** C7: in every result [validate] returns, there are field errors exactly
    when it failed. *)
Theorem fieldErrors_nonempty_iff_failed ds i s r :
  login_result get_user hasher_verify hasher_hash store_password
    requires_confirmation password_validators inherited_fields ds i s =
    Returned r ->
  (fieldErrors r <> [] <-> succeeded r = false).
Proof.
  rewrite result_eq, run_outcome.
  destruct (valid i s) eqn:V; cbn [negb].
  - destruct (failing ds i s) as [c|]; [destruct c|];
      intros H; inversion H; subst; cbn; split; intros; congruence.
  - intros H; inversion H; subst; cbn [fieldErrors succeeded].
    split; [reflexivity|]. intros _. apply fields_valid_false. exact V.
Qed.

(** C9: the directory is looked up with the identifier exactly as it was
    submitted; stripping serves the emptiness test only. *)
Theorem lookup_receives_identifier_verbatim ds i s :
  String.eqb (strip i) "" = false ->
  lookups_of (trace (run ds i s).2) =
    if valid i s && negb (String.eqb (strip s) "") then [i] else [].
Proof.
  intros I. settle.
  destruct (valid i s), (String.eqb (strip s) ""); reflexivity.
Qed.

(** One run with a matching hash that is flagged outdated: exactly one
    rehash is triggered, with the submitted plaintext, and the run goes on
    to the two gates. *)
Lemma outdated_hash_rehashed_once ds i s u :
  valid i s = true -> String.eqb (strip s) "" = false ->
  get_user ds i = Some u ->
  truthy_str (User.password u) = true ->
  hasher_verify s (default "" (User.password u)) = (true, true) ->
  rehashes_of (trace (run ds i s).2) = [(s, u)]
  /\ (requires_confirmation u = false ->
      result ds i s =
        Returned {| succeeded := truthy_bool (User.is_active u);
                    fieldErrors :=
                      if truthy_bool (User.is_active u) then []
                      else [("username", ["DISABLED ACCOUNT"])];
                    resolvedAccount := Some u |}).
Proof.
  intros V S G P H.
  pose proof (fields_valid_identifier _ _ V) as I.
  split.
  - settle. reflexivity.
  - intros C. settle.
    destruct (truthy_bool (User.is_active u)); reflexivity.
Qed.

(** The store plays no part in what [validate] reports. *)
Lemma result_without_store ds i s :
  result ds i s =
    match (if negb (valid i s) then Returned false
           else match failing ds i s with
                | None => Returned true
                | Some ConfirmationGate =>
                    Raised (AttributeError "User" "errors")
                | Some _ => Returned false
                end) with
    | Returned b =>
        Returned
          {| succeeded := b;
             fieldErrors :=
               if valid i s then
                 match failing ds i s with
                 | None => []
                 | Some c => failure_report c
                 end
               else Form_errors (checked i s);
             resolvedAccount :=
               if gets_to ds i s IdentityResolution then get_user ds i
               else None |}
    | Raised e => Raised e
    end.
Proof. rewrite result_eq, run_outcome. reflexivity. Qed.

(** ** Further properties of [validate] *)

(** X1: [validate] returns [True] exactly when line 137 lets the form through,
    the secret is not blank, and the identifier resolves to an account
    that has a password, whose password verifies, that has no confirmation
    pending and that is active. *)
Theorem validate_succeeds_iff ds i s :
  (run ds i s).1 = Returned true <->
  valid i s = true /\ String.eqb (strip s) "" = false /\
  exists u, get_user ds i = Some u
    /\ truthy_str (User.password u) = true
    /\ (hasher_verify s (default "" (User.password u))).1 = true
    /\ requires_confirmation u = false
    /\ truthy_bool (User.is_active u) = true.
Proof.
  rewrite run_outcome. destruct (valid i s) eqn:V; cbn [negb].
  2: { split; [discriminate|]. intros (H & _). discriminate. }
  pose proof (fields_valid_identifier _ _ V) as I.
  unfold first_failure, check_order. cbn [List.find check_ok].
  rewrite I. cbn [negb].
  destruct (String.eqb (strip s) "") eqn:S; cbn [negb].
  { split; [discriminate|]. intros (_ & H & _). discriminate. }
  destruct (get_user ds i) as [u|]; cbn [negb].
  2: { split; [discriminate|]. intros (_ & _ & u & H & _). discriminate. }
  destruct (truthy_str (User.password u)) eqn:P,
           ((hasher_verify s (default "" (User.password u))).1) eqn:H,
           (requires_confirmation u) eqn:C,
           (truthy_bool (User.is_active u)) eqn:A; cbn [negb];
    (split;
     [ try discriminate; intros _; repeat split; try reflexivity;
       exists u; repeat split; assumption
     | intros (_ & _ & u' & G & P' & H' & C' & A'); inversion G; subst u';
       congruence ]).
Qed.

(** X2: A blank secret that the field validators let through is reported on
    the secret field, and the directory is not looked up. *)
Theorem blank_secret_fails_without_lookup ds i s :
  valid i s = true -> strip s = "" ->
  result ds i s =
    Returned {| succeeded := false;
                fieldErrors := [("password", ["PASSWORD NOT PROVIDED"])];
                resolvedAccount := None |}
  /\ lookups_of (trace (run ds i s).2) = [].
Proof.
  intros V B. assert (String.eqb (strip s) "" = true) as S
    by (rewrite B; reflexivity).
  pose proof (fields_valid_identifier _ _ V) as I.
  split; settle; reflexivity.
Qed.

(** X3: A disabled account with the right secret and no confirmation pending
    is rejected on the identifier field, and the result still holds the
    account. *)
Theorem disabled_account_rejected ds i s u :
  valid i s = true -> String.eqb (strip s) "" = false ->
  get_user ds i = Some u ->
  truthy_str (User.password u) = true ->
  (hasher_verify s (default "" (User.password u))).1 = true ->
  requires_confirmation u = false ->
  truthy_bool (User.is_active u) = false ->
  result ds i s =
    Returned {| succeeded := false;
                fieldErrors := [("username", ["DISABLED ACCOUNT"])];
                resolvedAccount := Some u |}.
Proof.
  intros V S G P H C A.
  pose proof (fields_valid_identifier _ _ V) as I.
  settle. reflexivity.
Qed.

(** X4: An account without a password is rejected on the secret field before
    the secret is looked at. *)
Theorem unset_password_rejected ds i s u :
  valid i s = true -> String.eqb (strip s) "" = false ->
  get_user ds i = Some u ->
  truthy_str (User.password u) = false ->
  result ds i s =
    Returned {| succeeded := false;
                fieldErrors := [("password", ["PASSWORD WAS NOT SET"])];
                resolvedAccount := Some u |}
  /\ checks_of (trace (run ds i s).2) =
       [ IdentifierPresence; SecretPresence; IdentityResolution;
         SecretHashPresence ].
Proof.
  intros V S G P.
  pose proof (fields_valid_identifier _ _ V) as I.
  split.
  - settle. reflexivity.
  - rewrite run_checks. read_checks. reflexivity.
Qed.

(** X6: The test of line 142 never fails: [Required] on the username field has
    already turned every blank identifier away at line 137, so no run ends
    at the identifier-presence check. *)
Theorem identifier_presence_never_fails ds i s :
  last (checks_of (trace (run ds i s).2)) <> Some IdentifierPresence.
Proof.
  rewrite run_checks. destruct (valid i s) eqn:V; [|discriminate].
  pose proof (fields_valid_identifier _ _ V) as I.
  unfold first_failure, check_order. cbn [List.find check_ok].
  rewrite I. cbn [negb].
  repeat match goal with
         | |- context [if ?b then _ else _] => destruct b
         end; discriminate.
Qed.

(** X7: When the field validators pass and [validate] returns [False], the
    result carries one message, on one field. *)
Theorem own_failure_reports_one_message ds i s r :
  fields_valid password_validators inherited_fields i s = true ->
  login_result get_user hasher_verify hasher_hash store_password
    requires_confirmation password_validators inherited_fields ds i s =
    Returned r ->
  succeeded r = false ->
  exists field msg, fieldErrors r = [(field, [msg])].
Proof.
  intros V. rewrite result_eq, run_outcome, V. cbn [negb].
  destruct (failing ds i s) as [c|]; [destruct c|];
    intros H F; inversion H; subst; cbn in *; try discriminate; eauto.
Qed.

(** When the identifier is unknown, or the account has no password, the
    run does not depend on the hasher or the store: it is the run one gets
    with a hasher that rejects everything and a store that always fails. *)
Lemma run_without_hasher ds i s :
  (forall u, get_user ds i = Some u -> truthy_str (User.password u) = false) ->
  run ds i s =
    login get_user (fun _ _ => (false, false)) (fun p => p)
      (fun _ _ _ => None) requires_confirmation password_validators
      inherited_fields ds i s.
Proof.
  intros N. unfold_validate. split_run; try reflexivity;
    match goal with
    | P : truthy_str (User.password ?u) = true |- _ =>
        rewrite (N u eq_refl) in P; discriminate
    end.
Qed.

(** ** The confirmation gate as configured *)

Abbreviation app_run :=
  (App.login get_user hasher_verify hasher_hash store_password
     password_validators inherited_fields).
Abbreviation app_result :=
  (App.login_result get_user hasher_verify hasher_hash store_password
     password_validators inherited_fields).

Lemma User_has_no_confirmed_at_attribute :
  bool_decide ("confirmed_at" ∈ User.attributes) = false.
Proof. reflexivity. Qed.

Ltac app_unfold :=
  cbv beta iota zeta delta
    [App.login App.validate App.requires_confirmation
     App.User_getattr_confirmed_at App.confirmable
     App.login_without_confirmation
     bind ret raise emit get_self set_self Form_validate
     username_errors_append password_errors_append set_user
     datastore_get_user User_getattr_errors verify_and_update_password];
  cbn [self datastore trace];
  match goal with
  | |- context [extendedLoginForm _ _ ?i ?s] =>
      fold (checked i s); fold (valid i s)
  end.

Ltac app_split :=
  split_run; rewrite ?User_has_no_confirmed_at_attribute; split_run.

Ltac app_read :=
  unfold App.confirmation_in_force;
  cbn [App.confirmable App.login_without_confirmation andb negb];
  read_checks.

(** How the configured [validate] ends.  With confirmation in force the
    gate does not answer: line 171 raises while reading [confirmed_at]. *)
Lemma app_run_outcome cfg ds i s :
  (app_run cfg ds i s).1 =
    if negb (valid i s) then Returned false
    else match first_failure get_user hasher_verify
                 (fun _ => App.confirmation_in_force cfg) ds i s with
         | None => Returned true
         | Some ConfirmationGate =>
             Raised (AttributeError "User" "confirmed_at")
         | Some _ => Returned false
         end.
Proof.
  destruct cfg as [[] []]; app_unfold; app_split; app_read; reflexivity.
Qed.

Lemma app_run_checks cfg ds i s :
  checks_of (trace (app_run cfg ds i s).2) =
    if valid i s then
      match first_failure get_user hasher_verify
              (fun _ => App.confirmation_in_force cfg) ds i s with
      | None => check_order
      | Some c => take_through c check_order
      end
    else [].
Proof.
  destruct cfg as [[] []]; app_unfold; app_split; app_read; reflexivity.
Qed.

Lemma app_run_stops cfg ds i s c :
  valid i s = true ->
  first_failure get_user hasher_verify
    (fun _ => App.confirmation_in_force cfg) ds i s = Some c ->
  last (trace (app_run cfg ds i s).2) = Some (EvCheck c).
Proof.
  destruct cfg as [[] []]; app_unfold; app_split; app_read; intros V F;
    try discriminate; inversion F; reflexivity.
Qed.

(** With confirmation not in force, the configured [validate] is the
    [validate] whose gate lets every account through. *)
Lemma app_run_without_confirmation cfg ds i s :
  App.confirmation_in_force cfg = false ->
  app_run cfg ds i s =
    login get_user hasher_verify hasher_hash store_password (fun _ => false)
      password_validators inherited_fields ds i s.
Proof.
  destruct cfg as [[] []]; intros F; try discriminate F; reflexivity.
Qed.

(** The checks of the configured [validate] run in the fixed order; a
    check whose condition fails ends the run right there with [False];
    with confirmation in force a run that gets to the confirmation gate
    ends there with the AttributeError of line 171. *)
Lemma app_checks_run_in_order cfg ds i s :
  if valid i s then
    match first_failure get_user hasher_verify
            (fun _ => App.confirmation_in_force cfg) ds i s with
    | None =>
        checks_of (trace (app_run cfg ds i s).2) = check_order
        /\ (app_run cfg ds i s).1 = Returned true
    | Some c =>
        checks_of (trace (app_run cfg ds i s).2) = take_through c check_order
        /\ last (trace (app_run cfg ds i s).2) = Some (EvCheck c)
        /\ (app_run cfg ds i s).1 =
             if decide (c = ConfirmationGate)
             then Raised (AttributeError "User" "confirmed_at")
             else Returned false
    end
  else
    checks_of (trace (app_run cfg ds i s).2) = []
    /\ (app_run cfg ds i s).1 = Returned false.
Proof.
  rewrite app_run_checks, app_run_outcome.
  destruct (valid i s) eqn:V; cbn [negb]; [|auto].
  destruct (first_failure get_user hasher_verify
              (fun _ => App.confirmation_in_force cfg) ds i s) as [c|] eqn:F;
    [|auto].
  split; [reflexivity|]. split; [apply app_run_stops; assumption|].
  destruct c; reflexivity.
Qed.

(** C2: [validate] does not always return.  It raises exactly when
    confirmation is in force and the run gets to the confirmation gate
    (valid fields, a secret, a known account with a password that
    verifies): reading [confirmed_at] on line 171 then raises
    AttributeError.  In every other case it returns a boolean. *)
Theorem validate_raises_iff_confirmation_in_force cfg ds i s :
  match (app_run cfg ds i s).1 with
  | Returned _ =>
      ~ (App.confirmation_in_force cfg = true
         /\ valid i s = true /\ String.eqb (strip s) "" = false
         /\ exists u, get_user ds i = Some u
              /\ truthy_str (User.password u) = true
              /\ (hasher_verify s (default "" (User.password u))).1 = true)
  | Raised e =>
      e = AttributeError "User" "confirmed_at"
      /\ App.confirmation_in_force cfg = true
      /\ valid i s = true /\ String.eqb (strip s) "" = false
      /\ exists u, get_user ds i = Some u
           /\ truthy_str (User.password u) = true
           /\ (hasher_verify s (default "" (User.password u))).1 = true
  end.
Proof.
  rewrite app_run_outcome. destruct (valid i s) eqn:V; cbn [negb].
  2: { intros (_ & H & _). discriminate. }
  pose proof (fields_valid_identifier _ _ V) as I.
  unfold first_failure, check_order. cbn [List.find check_ok].
  rewrite I. cbn [negb].
  destruct (String.eqb (strip s) "") eqn:S; cbn [negb].
  { intros (_ & _ & H & _). discriminate. }
  destruct (get_user ds i) as [u|]; cbn [negb].
  2: { intros (_ & _ & _ & u & H & _). discriminate. }
  destruct (truthy_str (User.password u)) eqn:P; cbn [negb].
  2: { intros (_ & _ & _ & u' & G & P' & _). inversion G; subst u'.
       congruence. }
  destruct ((hasher_verify s (default "" (User.password u))).1) eqn:H;
    cbn [negb].
  2: { intros (_ & _ & _ & u' & G & _ & H'). inversion G; subst u'.
       congruence. }
  destruct (App.confirmation_in_force cfg) eqn:F; cbn [negb].
  - repeat split; eauto.
  - destruct (truthy_bool (User.is_active u)); cbn [negb];
      intros (F' & _); discriminate.
Qed.

(** C4: with confirmation in force, an account that has not confirmed and
    presents the right secret is not turned away with a message: the call
    of line 171 raises AttributeError, [User] having no [confirmed_at]
    (line 92), and no result is produced. *)
Theorem confirmation_pending_raises cfg ds i s u :
  App.confirmable cfg = true ->
  App.login_without_confirmation cfg = false ->
  valid i s = true -> String.eqb (strip s) "" = false ->
  get_user ds i = Some u ->
  truthy_str (User.password u) = true ->
  (hasher_verify s (default "" (User.password u))).1 = true ->
  app_result cfg ds i s = Raised (AttributeError "User" "confirmed_at").
Proof.
  intros C L V S G P H.
  pose proof (fields_valid_identifier _ _ V) as I.
  unfold App.login_result, result_of. rewrite app_run_outcome.
  unfold App.confirmation_in_force. rewrite C, L, V. cbn [negb andb].
  read_checks. reflexivity.
Qed.

(** C6: with confirmation in force, a run whose first five checks pass
    performs the confirmation gate sixth and ends there, but not by a
    return: [validate] leaves through the AttributeError of line 171.  The
    activation gate does not run. *)
Theorem confirmation_gate_ends_in_exception cfg ds i s u :
  App.confirmable cfg = true ->
  App.login_without_confirmation cfg = false ->
  valid i s = true -> String.eqb (strip s) "" = false ->
  get_user ds i = Some u ->
  truthy_str (User.password u) = true ->
  (hasher_verify s (default "" (User.password u))).1 = true ->
  checks_of (trace (app_run cfg ds i s).2) =
    [ IdentifierPresence; SecretPresence; IdentityResolution;
      SecretHashPresence; SecretVerification; ConfirmationGate ]
  /\ last (trace (app_run cfg ds i s).2) = Some (EvCheck ConfirmationGate)
  /\ (app_run cfg ds i s).1 = Raised (AttributeError "User" "confirmed_at").
Proof.
  intros C L V S G P H.
  pose proof (fields_valid_identifier _ _ V) as I.
  assert (first_failure get_user hasher_verify
            (fun _ => App.confirmation_in_force cfg) ds i s =
          Some ConfirmationGate) as F.
  { unfold App.confirmation_in_force. rewrite C, L. cbn [negb andb].
    read_checks. reflexivity. }
  pose proof (app_checks_run_in_order cfg ds i s) as O.
  rewrite V, F in O. exact O.
Qed.

End Facts.

(** C8, as amended: when the stored hash matches the submitted secret and
    is flagged outdated, one rehash-and-store is triggered in that call,
    with the submitted plaintext; [validate] succeeds when the account
    also passes the confirmation and activation gates; and whether the
    store succeeds or fails changes nothing in the result. *)
Theorem outdated_hash_rehash_once_result_unchanged {Datastore : Type}
    (get_user : Datastore -> string -> option User.t)
    (hasher_verify : string -> string -> bool * bool)
    (hasher_hash : string -> string)
    (store store' : Datastore -> User.t -> string -> option Datastore)
    (requires_confirmation : User.t -> bool)
    (password_validators : list Validator)
    (inherited_fields : list (string * Field))
    (ds : Datastore) (i s : string) (u : User.t) :
  fields_valid password_validators inherited_fields i s = true ->
  String.eqb (strip s) "" = false ->
  get_user ds i = Some u ->
  truthy_str (User.password u) = true ->
  hasher_verify s (default "" (User.password u)) = (true, true) ->
  rehashes_of
    (trace (login get_user hasher_verify hasher_hash store
              requires_confirmation password_validators inherited_fields
              ds i s).2) = [(s, u)]
  /\ (requires_confirmation u = false ->
      truthy_bool (User.is_active u) = true ->
      login_result get_user hasher_verify hasher_hash store
        requires_confirmation password_validators inherited_fields ds i s =
      Returned {| succeeded := true; fieldErrors := [];
                  resolvedAccount := Some u |})
  /\ login_result get_user hasher_verify hasher_hash store'
       requires_confirmation password_validators inherited_fields ds i s =
     login_result get_user hasher_verify hasher_hash store
       requires_confirmation password_validators inherited_fields ds i s.
Proof.
  intros V S G P H.
  destruct (outdated_hash_rehashed_once get_user hasher_verify hasher_hash
              store requires_confirmation password_validators
              inherited_fields ds i s u V S G P H) as [R O].
  split; [exact R|]. split.
  - intros C A. rewrite (O C), A. reflexivity.
  - rewrite !result_without_store. reflexivity.
Qed.

(** ** The claims on the concrete directory *)

Lemma generic_error_same_text_on_separate_fields_witness :
  Demo.get_user Demo.directory "bob" = None
  /\ Demo.get_user Demo.directory "alice" = Some Demo.alice
  /\ exists msg,
       Demo.login_result Demo.directory "bob" "anything" =
         Returned {| succeeded := false;
                     fieldErrors := [("username", [msg])];
                     resolvedAccount := None |}
       /\ Demo.login_result Demo.directory "alice" "wrong-pw" =
         Returned {| succeeded := false;
                     fieldErrors := [("password", [msg])];
                     resolvedAccount := Some Demo.alice |}.
Proof.
  split; [reflexivity|]. split; [reflexivity|].
  apply (generic_error_same_text_on_separate_fields Demo.get_user
           Demo.hasher_verify Demo.hasher_hash Demo.store_password
           Demo.requires_confirmation [] [] Demo.directory
           "bob" "anything" "alice" "wrong-pw" Demo.alice);
    reflexivity.
Defined.

(** The unknown identifier is reported on the identifier field; the
    wrong secret is not. *)
Lemma wrong_secret_error_not_on_identifier_field :
  exists r1 r2,
    Demo.login_result Demo.directory "bob" "anything" = Returned r1
    /\ Demo.login_result Demo.directory "alice" "wrong-pw" = Returned r2
    /\ (exists msg, error_on "username" msg r1)
    /\ ~ (exists msg, error_on "username" msg r2).
Proof.
  eexists. eexists. split; [vm_compute; reflexivity|].
  split; [vm_compute; reflexivity|]. split.
  - exists "INCORRECT USERNAME/PASSWORD", ["INCORRECT USERNAME/PASSWORD"].
    split; apply list_elem_of_here.
  - intros (msg & msgs & Hin & _). cbn [fieldErrors] in Hin.
    apply list_elem_of_singleton in Hin. discriminate.
Qed.

(** A wrong secret gives a failed result that still holds the account the
    lookup returned. *)
Lemma failed_validation_keeps_resolved_account :
  exists r,
    Demo.login_result Demo.directory "alice" "wrong-pw" = Returned r
    /\ succeeded r = false
    /\ resolvedAccount r = Some Demo.alice
    /\ ~ (resolvedAccount r <> None <-> succeeded r = true).
Proof.
  eexists. split; [vm_compute; reflexivity|]. cbn.
  split; [reflexivity|]. split; [reflexivity|].
  intros [H _]. specialize (H ltac:(discriminate)). discriminate.
Qed.

Lemma resolvedAccount_set_by_lookup_witness :
  exists r,
    Demo.login_result Demo.directory "dave" "dave-pw" = Returned r
    /\ (succeeded r = true -> resolvedAccount r <> None)
    /\ resolvedAccount r = Some Demo.dave.
Proof.
  eexists. split; [vm_compute; reflexivity|].
  apply (resolvedAccount_set_by_lookup Demo.get_user Demo.hasher_verify
           Demo.hasher_hash Demo.store_password Demo.requires_confirmation
           [] [] Demo.directory "dave" "dave-pw").
  vm_compute. reflexivity.
Defined.

Lemma blank_identifier_fails_without_lookup_witness :
  strip "   " = ""
  /\ exists r,
       Demo.login_result Demo.directory "   " "anything" = Returned r
       /\ succeeded r = false
       /\ (exists msg, error_on "username" msg r)
       /\ lookups_of (trace (Demo.login Demo.directory "   " "anything").2)
          = [].
Proof.
  split; [reflexivity|].
  apply (blank_identifier_fails_without_lookup Demo.get_user
           Demo.hasher_verify Demo.hasher_hash Demo.store_password
           Demo.requires_confirmation [] [] Demo.directory "   " "anything").
  reflexivity.
Defined.

Lemma fieldErrors_nonempty_iff_failed_witness :
  exists r,
    Demo.login_result Demo.directory "frank" "x" = Returned r
    /\ (fieldErrors r <> [] <-> succeeded r = false).
Proof.
  eexists. split; [vm_compute; reflexivity|].
  apply (fieldErrors_nonempty_iff_failed Demo.get_user Demo.hasher_verify
           Demo.hasher_hash Demo.store_password Demo.requires_confirmation
           [] [] Demo.directory "frank" "x").
  vm_compute. reflexivity.
Defined.

(** Dave's hash matches and is outdated, the rehash happens, and
    [validate] still fails, the account being disabled. *)
Lemma disabled_account_with_outdated_hash_fails :
  Demo.get_user Demo.directory "dave" = Some Demo.dave
  /\ Demo.hasher_verify "dave-pw" (default "" (User.password Demo.dave)) =
       (true, true)
  /\ rehashes_of (trace (Demo.login Demo.directory "dave" "dave-pw").2) =
       [("dave-pw", Demo.dave)]
  /\ exists r,
       Demo.login_result Demo.directory "dave" "dave-pw" = Returned r
       /\ succeeded r = false.
Proof.
  split; [reflexivity|]. split; [reflexivity|].
  split; [vm_compute; reflexivity|].
  eexists. split; [vm_compute; reflexivity|]. reflexivity.
Qed.

Lemma outdated_hash_rehash_once_result_unchanged_witness :
  Demo.hasher_verify "erin-pw" (default "" (User.password Demo.erin)) =
    (true, true)
  /\ rehashes_of
       (trace (login Demo.get_user Demo.hasher_verify Demo.hasher_hash
                 Demo.store_fails Demo.requires_confirmation [] []
                 Demo.directory "erin" "erin-pw").2) =
     [("erin-pw", Demo.erin)]
  /\ login_result Demo.get_user Demo.hasher_verify Demo.hasher_hash
       Demo.store_fails Demo.requires_confirmation [] []
       Demo.directory "erin" "erin-pw" =
     Returned {| succeeded := true; fieldErrors := [];
                 resolvedAccount := Some Demo.erin |}
  /\ login_result Demo.get_user Demo.hasher_verify Demo.hasher_hash
       Demo.store_password Demo.requires_confirmation [] []
       Demo.directory "erin" "erin-pw" =
     login_result Demo.get_user Demo.hasher_verify Demo.hasher_hash
       Demo.store_fails Demo.requires_confirmation [] []
       Demo.directory "erin" "erin-pw".
Proof.
  split; [reflexivity|].
  destruct (outdated_hash_rehash_once_result_unchanged Demo.get_user
              Demo.hasher_verify Demo.hasher_hash Demo.store_fails
              Demo.store_password Demo.requires_confirmation [] []
              Demo.directory "erin" "erin-pw" Demo.erin
              eq_refl eq_refl eq_refl eq_refl eq_refl) as (R & O & E).
  split; [exact R|]. split; [exact (O eq_refl eq_refl)|exact E].
Defined.

Lemma lookup_receives_identifier_verbatim_witness :
  strip " alice " = "alice"
  /\ lookups_of (trace (Demo.login Demo.directory " alice " "x").2) =
       [" alice "].
Proof.
  split; [reflexivity|].
  apply (lookup_receives_identifier_verbatim Demo.get_user
           Demo.hasher_verify Demo.hasher_hash Demo.store_password
           Demo.requires_confirmation [] [] Demo.directory " alice " "x").
  reflexivity.
Defined.

(** ** [run_query] *)

Lemma get_db_is_global : Query.resolve "get_db" = Returned Query.Global.
Proof. reflexivity. Qed.

Lemma getdb_is_unbound : Query.resolve "getdb" = Raised (NameError "getdb").
Proof. reflexivity. Qed.

(** C10: whatever the query type and the arguments, [run_query] raises
    NameError for [getdb] and the database sees nothing. *)
Theorem run_query_raises_NameError
    (with_connection :
       string -> gmap string Query.Value ->
       outcome Query.QueryResult * list Query.DbEvent)
    (query_type : string) (args : gmap string Query.Value) :
  Query.run_query with_connection query_type args =
    (Raised (NameError "getdb"), []).
Proof.
  unfold Query.run_query. rewrite getdb_is_unbound. reflexivity.
Qed.

(** * Further properties of [validate], continued *)

(** X5: For an unknown identifier, and for an account without a password,
    [validate] never consults the password hasher or the store: with any
    two hashers and stores the whole run (result, form, datastore and
    trace) is the same. *)
Theorem hasher_not_consulted_without_stored_password {Datastore : Type}
    (get_user : Datastore -> string -> option User.t)
    (hasher_verify hasher_verify' : string -> string -> bool * bool)
    (hasher_hash hasher_hash' : string -> string)
    (store store' : Datastore -> User.t -> string -> option Datastore)
    (requires_confirmation : User.t -> bool)
    (password_validators : list Validator)
    (inherited_fields : list (string * Field))
    (ds : Datastore) (i s : string) :
  (forall u, get_user ds i = Some u -> truthy_str (User.password u) = false) ->
  login get_user hasher_verify hasher_hash store requires_confirmation
    password_validators inherited_fields ds i s =
  login get_user hasher_verify' hasher_hash' store' requires_confirmation
    password_validators inherited_fields ds i s.
Proof.
  intros N.
  rewrite (run_without_hasher get_user hasher_verify hasher_hash store
             requires_confirmation password_validators inherited_fields
             ds i s N).
  rewrite (run_without_hasher get_user hasher_verify' hasher_hash' store'
             requires_confirmation password_validators inherited_fields
             ds i s N).
  reflexivity.
Qed.

Lemma hasher_not_consulted_without_stored_password_witness :
  Demo.get_user Demo.directory "bob" = None
  /\ login Demo.get_user Demo.hasher_verify Demo.hasher_hash
       Demo.store_password Demo.requires_confirmation [] []
       Demo.directory "bob" "anything" =
     login Demo.get_user (fun _ _ => (true, true)) (fun p => p)
       Demo.store_fails Demo.requires_confirmation [] []
       Demo.directory "bob" "anything".
Proof.
  split; [reflexivity|].
  apply (hasher_not_consulted_without_stored_password Demo.get_user
           Demo.hasher_verify (fun _ _ => (true, true))
           Demo.hasher_hash (fun p => p)
           Demo.store_password Demo.store_fails
           Demo.requires_confirmation [] [] Demo.directory
           "bob" "anything").
  intros u H. vm_compute in H. discriminate H.
Defined.

Lemma blank_secret_fails_without_lookup_witness :
  strip "   " = ""
  /\ Demo.login_result Demo.directory "alice" "   " =
       Returned {| succeeded := false;
                   fieldErrors := [("password", ["PASSWORD NOT PROVIDED"])];
                   resolvedAccount := None |}
  /\ lookups_of (trace (Demo.login Demo.directory "alice" "   ").2) = [].
Proof.
  split; [reflexivity|].
  apply (blank_secret_fails_without_lookup Demo.get_user Demo.hasher_verify
           Demo.hasher_hash Demo.store_password Demo.requires_confirmation
           [] [] Demo.directory "alice" "   "); reflexivity.
Defined.

Lemma disabled_account_rejected_witness :
  User.active Demo.dave = Some false
  /\ Demo.login_result Demo.directory "dave" "dave-pw" =
       Returned {| succeeded := false;
                   fieldErrors := [("username", ["DISABLED ACCOUNT"])];
                   resolvedAccount := Some Demo.dave |}.
Proof.
  split; [reflexivity|].
  apply (disabled_account_rejected Demo.get_user Demo.hasher_verify
           Demo.hasher_hash Demo.store_password Demo.requires_confirmation
           [] [] Demo.directory "dave" "dave-pw" Demo.dave); reflexivity.
Defined.

Lemma unset_password_rejected_witness :
  User.password Demo.frank = None
  /\ Demo.login_result Demo.directory "frank" "x" =
       Returned {| succeeded := false;
                   fieldErrors := [("password", ["PASSWORD WAS NOT SET"])];
                   resolvedAccount := Some Demo.frank |}
  /\ checks_of (trace (Demo.login Demo.directory "frank" "x").2) =
       [ IdentifierPresence; SecretPresence; IdentityResolution;
         SecretHashPresence ].
Proof.
  split; [reflexivity|].
  apply (unset_password_rejected Demo.get_user Demo.hasher_verify
           Demo.hasher_hash Demo.store_password Demo.requires_confirmation
           [] [] Demo.directory "frank" "x" Demo.frank); reflexivity.
Defined.

Lemma own_failure_reports_one_message_witness :
  exists r,
    Demo.login_result Demo.directory "alice" "wrong-pw" = Returned r
    /\ exists field msg, fieldErrors r = [(field, [msg])].
Proof.
  eexists. split; [vm_compute; reflexivity|].
  apply (own_failure_reports_one_message Demo.get_user Demo.hasher_verify
           Demo.hasher_hash Demo.store_password Demo.requires_confirmation
           [] [] Demo.directory "alice" "wrong-pw");
    vm_compute; reflexivity.
Defined.

(** * Table queries and report pages *)

Section ScanFacts.

Import Tables.

Lemma scan_app a b st : scan (a ++ b) st = scan b (scan a st).
Proof.
  revert st. induction a as [|c a IH]; intros st; [reflexivity|].
  change (String c a ++ b) with (String c (a ++ b)). cbn [scan]. apply IH.
Qed.

(** The literal state follows the parity of the quotes alone. *)
Lemma scan_fst_gen s b d d' :
  (scan s (b, d)).1 = xorb b (scan s (false, d')).1.
Proof.
  revert b d d'. induction s as [|c s IH]; intros b d d'.
  - cbn. destruct b; reflexivity.
  - cbn [scan fst snd].
    destruct (Ascii.eqb c "'"), b, (Ascii.eqb c "("), (Ascii.eqb c ")");
      cbn [negb];
      match goal with
      | |- (scan s (?x, ?dx)).1 = xorb _ (scan s (?y, ?dy)).1 =>
          rewrite (IH x dx 0%Z); try rewrite (IH y dy 0%Z)
      end;
      destruct ((scan s (false, 0%Z)).1); reflexivity.
Qed.

Lemma scan_fst s b d : (scan s (b, d)).1 = xorb b (ends_in_literal s).
Proof. apply scan_fst_gen. Qed.

Lemma ends_in_literal_cons c s :
  ends_in_literal (String c s) = xorb (Ascii.eqb c "'") (ends_in_literal s).
Proof.
  unfold ends_in_literal at 1. cbn [scan fst snd].
  destruct (Ascii.eqb c "'"); cbn [negb].
  - apply scan_fst.
  - destruct (Ascii.eqb c "("); [|destruct (Ascii.eqb c ")")];
      rewrite scan_fst; reflexivity.
Qed.

Lemma ends_in_literal_app a b :
  ends_in_literal (a ++ b) = xorb (ends_in_literal a) (ends_in_literal b).
Proof.
  induction a as [|c a IH]; [reflexivity|].
  change (String c a ++ b) with (String c (a ++ b)).
  rewrite !ends_in_literal_cons, IH.
  destruct (Ascii.eqb c "'"), (ends_in_literal a), (ends_in_literal b);
    reflexivity.
Qed.

Lemma free_of_cons cs c s :
  free_of cs (String c s) = true ->
  (c ∉ cs) /\ free_of cs s = true.
Proof.
  cbn [free_of]. intros H. apply andb_true_iff in H. destruct H as [H1 H2].
  split; [|exact H2]. apply negb_true_iff, bool_decide_eq_false in H1.
  exact H1.
Qed.

(** Inside a literal, a string without quotes changes nothing. *)
Lemma scan_inside s d :
  free_of ["'"; "("; ")"]%char s = true -> scan s (true, d) = (true, d).
Proof.
  induction s as [|c s IH]; intros F; [reflexivity|].
  apply free_of_cons in F. destruct F as [N F].
  cbn [scan fst snd].
  destruct (Ascii.eqb_spec c "'") as [->|_].
  - exfalso. apply N. apply list_elem_of_here.
  - apply IH, F.
Qed.

(** Outside a literal, a string without quotes and parentheses changes
    nothing. *)
Lemma scan_outside s d :
  free_of ["'"; "("; ")"]%char s = true -> scan s (false, d) = (false, d).
Proof.
  induction s as [|c s IH]; intros F; [reflexivity|].
  apply free_of_cons in F. destruct F as [N F].
  cbn [scan fst snd].
  destruct (Ascii.eqb_spec c "'") as [->|_].
  { exfalso. apply N. apply list_elem_of_here. }
  destruct (Ascii.eqb_spec c "(") as [->|_].
  { exfalso. apply N. apply list_elem_of_further, list_elem_of_here. }
  destruct (Ascii.eqb_spec c ")") as [->|_].
  { exfalso. apply N. do 2 apply list_elem_of_further. apply list_elem_of_here. }
  apply IH, F.
Qed.

End ScanFacts.

(** X8: The argument of a getter goes into its statement as it is, quotes
    included: the statement ends inside a string literal exactly when the
    argument holds an odd number of quotes. *)
Theorem getter_argument_not_escaped name g arg :
  (name, g) ∈ Tables.all_getters -> Tables.takes_arg g = true ->
  Tables.ends_in_literal (Tables.statement g (Some arg)) =
  Tables.ends_in_literal arg.
Proof.
  intros H. revert arg.
  assert (Forall (fun ng : string * Tables.Getter =>
            forall arg, Tables.takes_arg ng.2 = true ->
              Tables.ends_in_literal (Tables.statement ng.2 (Some arg)) =
              Tables.ends_in_literal arg) Tables.all_getters) as A.
  { let l := eval vm_compute in Tables.all_getters in
    change Tables.all_getters with l.
    repeat constructor; intros arg T; try discriminate T;
      cbv beta iota delta
        [Tables.statement Tables.template Tables.format0 snd];
      rewrite ?ends_in_literal_cons, ends_in_literal_app;
      cbn; destruct (Tables.ends_in_literal arg); reflexivity. }
  rewrite Forall_forall in A. intros arg. exact (A _ H arg).
Qed.

Ltac literal_prefix s :=
  lazymatch s with
  | String ?c ?r => let p := literal_prefix r in constr:(String c p)
  | _ => constr:(EmptyString)
  end.

Ltac after_prefix s :=
  lazymatch s with
  | String _ ?r => after_prefix r
  | _ => constr:(s)
  end.

Ltac scan_closed :=
  repeat match goal with
         | |- context [Tables.scan ?s (?b, ?d)] =>
             lazymatch s with
             | context [String.append] => fail
             | _ =>
                 let v := eval vm_compute in (Tables.scan s (b, d)) in
                 change (Tables.scan s (b, d)) with v
             end
         end.

(** X9: For an argument without quotes or parentheses, every getter builds a
    statement whose parentheses balance outside string literals, except
    [getAvgHrlyCity] (in both classes that define it), whose closing
    parenthesis sits inside the literal. *)
Theorem getter_parentheses_balance name g arg :
  (name, g) ∈ Tables.all_getters -> Tables.takes_arg g = true ->
  Tables.free_of ["'"; "("; ")"]%char arg = true ->
  Tables.open_parens (Tables.statement g (Some arg)) =
  if String.eqb name "getAvgHrlyCity" then 1%Z else 0%Z.
Proof.
  intros H. revert arg.
  assert (Forall (fun ng : string * Tables.Getter =>
            forall arg, Tables.takes_arg ng.2 = true ->
              Tables.free_of ["'"; "("; ")"]%char arg = true ->
              Tables.open_parens (Tables.statement ng.2 (Some arg)) =
              if String.eqb ng.1 "getAvgHrlyCity" then 1%Z else 0%Z)
            Tables.all_getters) as A.
  { let l := eval vm_compute in Tables.all_getters in
    change Tables.all_getters with l.
    repeat constructor; intros arg T F; try discriminate T;
      cbv beta iota delta
        [Tables.statement Tables.template Tables.format0 fst snd
         Tables.open_parens];
      match goal with
      | |- context [Tables.scan ?s _] =>
          let p := literal_prefix s in
          let r := after_prefix s in
          change s with (p ++ r)
      end;
      rewrite !scan_app; scan_closed;
      rewrite ?(scan_inside arg _ F), ?(scan_outside arg _ F);
      scan_closed; reflexivity. }
  rewrite Forall_forall in A. intros arg. exact (A _ H arg).
Qed.

(** X10: [ProductsTable] binds [getProductsZip] three times; what stays is the
    last binding, which queries by state: whatever the argument, a call
    of [getProductsZip] sends the [getProdState] statement. *)
Theorem getProductsZip_sends_state_query {Cell : Type}
    (be : Tables.Backend Cell) (x : string) :
  Tables.statements_of
    (Tables.call Cell be Tables.ProductsTable "getProductsZip" (Some x)
       []).2 =
  match Tables.connect be [] with
  | None => ["Select * FROM getProdState('" ++ x ++ "');"]
  | Some _ => []
  end.
Proof.
  unfold Tables.call.
  let v := eval vm_compute in
    (Tables.class_getattr Tables.ProductsTable "getProductsZip") in
  change (Tables.class_getattr Tables.ProductsTable "getProductsZip") with v.
  cbv beta iota delta
    [Tables.takes_arg Tables.run_getter Tables.bind Tables.engine_connect
     Tables.conn_execute Tables.conn_close Tables.ret Tables.raise
     Tables.first_0 Tables.scalar Tables.statement Tables.template
     Tables.format0].
  replace (bool_decide (is_Some (Some x))) with true
    by (symmetry; apply bool_decide_eq_true; eauto).
  cbn [Bool.eqb].
  destruct (Tables.connect be []); [reflexivity|].
  cbn [app].
  destruct (Tables.execute be [Tables.Connect] _); reflexivity.
Qed.

(** X11: No attribute of [ProductsTable] is a getter with the zip or the city
    statement of lines 709 and 715: both are overridden. *)
Theorem ProductsTable_zip_and_city_queries_unreachable name g :
  Tables.class_getattr Tables.ProductsTable name = Some (Tables.Method g) ->
  Tables.template g <> "Select * FROM getProdZip('{0}');"
  /\ Tables.template g <> "Select * FROM getProdCity('{0}');".
Proof.
  unfold Tables.class_getattr.
  let v := eval vm_compute in (rev Tables.ProductsTable) in
  change (rev Tables.ProductsTable) with v.
  cbn [List.find fst snd].
  repeat match goal with
         | |- context [String.eqb ?a name] =>
             destruct (String.eqb a name) eqn:?
         end;
    intros H; inversion H; subst; cbn; split; discriminate.
Qed.

(** X12: A getter that ends in [.first()[0]] raises TypeError when the
    statement yields no row, and [close] is never reached. *)
Theorem scalar_getter_fails_on_empty_result {Cell : Type}
    (be : Tables.Backend Cell) (g : Tables.Getter) (arg : option string)
    (t0 : list Tables.Event) :
  Tables.scalar g = true ->
  Tables.connect be t0 = None ->
  Tables.execute be (t0 ++ [Tables.Connect])%list (Tables.statement g arg) =
    inr [] ->
  Tables.run_getter Cell be g arg t0 =
    (Tables.Err Tables.TypeError,
     (t0 ++ [Tables.Connect; Tables.Execute (Tables.statement g arg)])%list).
Proof.
  intros S C E.
  unfold Tables.run_getter, Tables.bind, Tables.engine_connect,
    Tables.conn_execute.
  rewrite C, E, S. cbn. rewrite <- app_assoc. reflexivity.
Qed.

Ltac db_unfold :=
  unfold Tables.users_page, Tables.stores_page, Tables.employees_page,
    Tables.products_page, Tables.call;
  repeat match goal with
         | |- context [Tables.class_getattr ?b ?n] =>
             let v := eval vm_compute in (Tables.class_getattr b n) in
             change (Tables.class_getattr b n) with v
         end;
  cbv beta iota zeta delta
    [Tables.takes_arg Tables.scalar Tables.template Tables.statement
     Tables.run_getter Tables.bind Tables.engine_connect
     Tables.conn_execute Tables.conn_close Tables.ret Tables.raise
     Tables.first_0 Tables.fetchall_0_0 Tables.render_template
     Bool.eqb];
  replace (bool_decide (is_Some (@None string))) with false
    by (symmetry; apply bool_decide_eq_false; intros [? ?]; discriminate).

Ltac db_split :=
  repeat first
    [ progress cbn [app fst snd]
    | match goal with
      | |- context [Tables.connect ?b ?t] =>
          destruct (Tables.connect b t) eqn:?
      | |- context [Tables.execute ?b ?t ?s] =>
          destruct (Tables.execute b t s) as [?|[|[? ?] ?]] eqn:?
      end ].

(** X13: Each report page, on a fresh engine: when it renders, or when a
    connection could not be opened, no connection is left open; when it
    fails in any other way, the connection in use is left open. *)
Theorem pages_leave_connection_open_on_failure {Cell : Type}
    (be : Tables.Backend Cell) :
  Forall
    (fun page : Tables.M (Tables.Response Cell) =>
       Tables.open_connections (page []).2 =
       match (page []).1 with
       | Tables.Ok _ | Tables.Err (Tables.ConnectError _) => 0%Z
       | Tables.Err _ => 1%Z
       end)
    [ Tables.users_page Cell be; Tables.stores_page Cell be;
      Tables.employees_page Cell be; Tables.products_page Cell be ].
Proof.
  repeat constructor; db_unfold; db_split; reflexivity.
Qed.

(** X14: With an engine that always connects and always answers with at least
    one row, each page renders its template, having sent its statements in
    source order and closed every connection it opened. *)
Theorem pages_render_when_queries_answer {Cell : Type}
    (be : Tables.Backend Cell) :
  (forall t, Tables.connect be t = None) ->
  (forall t s, exists r rs, Tables.execute be t s = inr (r :: rs)) ->
  (exists ctx,
     Tables.users_page Cell be [] =
       (Tables.Ok (Tables.mkResponse Cell "users.html" ctx),
        [ Tables.Connect;
          Tables.Execute "SELECT * FROM flask_security_user;";
          Tables.Close;
          Tables.Connect;
          Tables.Execute "SELECT COUNT(id) FROM flask_security_user;";
          Tables.Execute "SELECT * FROM getNumFlaskAdmins();";
          Tables.Close ]))
  /\ (exists ctx,
     Tables.stores_page Cell be [] =
       (Tables.Ok (Tables.mkResponse Cell "stores.html" ctx),
        [ Tables.Connect; Tables.Execute "SELECT * FROM stores;";
          Tables.Close;
          Tables.Connect; Tables.Execute "SELECT * FROM getAvgSalAll();";
          Tables.Close;
          Tables.Connect; Tables.Execute "SELECT * FROM getAvgHrlyAll();";
          Tables.Close;
          Tables.Connect; Tables.Execute "SELECT * FROM getNumEmps();";
          Tables.Close ]))
  /\ (exists ctx,
     Tables.employees_page Cell be [] =
       (Tables.Ok (Tables.mkResponse Cell "employees.html" ctx),
        [ Tables.Connect; Tables.Execute "SELECT * FROM getAvgSalAll();";
          Tables.Close;
          Tables.Connect; Tables.Execute "SELECT * FROM getAvgHrlyAll();";
          Tables.Close;
          Tables.Connect;
          Tables.Execute
            "SELECT * FROM employees NATURAL JOIN employment order by eid;";
          Tables.Close ]))
  /\ (exists ctx,
     Tables.products_page Cell be [] =
       (Tables.Ok (Tables.mkResponse Cell "products.html" ctx),
        [ Tables.Connect; Tables.Execute "SELECT * FROM getProds();";
          Tables.Close;
          Tables.Connect; Tables.Execute "SELECT * FROM getAvgPrice();";
          Tables.Close;
          Tables.Connect; Tables.Execute "SELECT * FROM getNumProds();";
          Tables.Close;
          Tables.Connect; Tables.Execute "SELECT * FROM getNumSale();";
          Tables.Close ])).
Proof.
  intros C E.
  repeat split; db_unfold;
    repeat first
      [ progress cbn [app fst snd]
      | rewrite C
      | match goal with
        | |- context [Tables.execute be ?t ?s] =>
            let r := fresh "r" in
            let rs := fresh "rs" in
            let H := fresh "H" in
            destruct (E t s) as (r & rs & H); rewrite H; clear H
        end ];
    eexists; reflexivity.
Qed.

(** * The employee form *)

Lemma filter_nonempty_nil (l : list (string * list string)) :
  filter (fun p : string * list string => p.2 ≠ []) l = [] <->
  Forall (fun p => p.2 = []) l.
Proof.
  induction l as [|p l IH]; [split; constructor|].
  rewrite filter_cons. destruct (decide (p.2 ≠ [])) as [N|N].
  - split; [discriminate|]. intros H. inversion H; subst. contradiction.
  - apply dec_stable in N. rewrite IH. split.
    + intros H. constructor; assumption.
    + intros H. inversion H; assumption.
Qed.

Lemma required_errors_nil b : EmpForm.required_errors b = [] <-> b = true.
Proof. destruct b; cbn; split; congruence. Qed.

Lemma required_str_true d :
  EmpForm.required_str d = true <-> exists s, d = Some s /\ strip s <> "".
Proof.
  destruct d as [s|]; cbn.
  - rewrite negb_true_iff. split.
    + intros H. exists s. split; [reflexivity|].
      intros E. rewrite E in H. discriminate.
    + intros (s' & E & N). inversion E; subst s'.
      apply String.eqb_neq. exact N.
  - split; [discriminate|]. intros (s & E & _). discriminate.
Qed.

Lemma roleid_errors_nil d :
  EmpForm.roleid_errors d = [] <->
  exists c, d = Some c /\ c ∈ ["1"; "2"; "3"; "4"; "5"].
Proof.
  unfold EmpForm.roleid_errors.
  destruct (EmpForm.required_str d) eqn:R.
  - apply required_str_true in R. destruct R as (s & -> & N).
    destruct (bool_decide
                (Some s ∈ map (fun c : string * string => Some c.1)
                            EmpForm.roleid_choices)) eqn:B.
    + apply bool_decide_eq_true in B. split; [|reflexivity]. intros _.
      exists s. split; [reflexivity|].
      apply list_elem_of_In in B. apply list_elem_of_In.
      cbn in B |- *. intuition congruence.
    + apply bool_decide_eq_false in B. split; [discriminate|].
      intros (c & E & I). inversion E; subst c. exfalso. apply B.
      apply list_elem_of_In in I. apply list_elem_of_In.
      cbn in I |- *. intuition congruence.
  - split; [discriminate|]. intros (c & -> & I).
    assert (EmpForm.required_str (Some c) = true) as T.
    { apply required_str_true. exists c. split; [reflexivity|].
      apply list_elem_of_In in I. cbn in I.
      intuition (subst; vm_compute; discriminate). }
    congruence.
Qed.

(** X15: [EmpCreate.validate()] accepts a submission exactly when both names
    are more than whitespace, the hourly box is ticked, the pay parsed and
    is not zero, the role is one of the five choices, and the store id
    parsed and is not 0.  An employee who is not paid hourly, or whose
    store has id 0, can therefore not be entered. *)
Theorem EmpCreate_validates_iff {Float : Type} (float_truthy : Float -> bool)
    (f : EmpForm.EmpCreate Float) :
  EmpForm.validate Float float_truthy f = true <->
  (exists s, EmpForm.firstname Float f = Some s /\ strip s <> "")
  /\ (exists s, EmpForm.lastname Float f = Some s /\ strip s <> "")
  /\ EmpForm.hourly Float f = true
  /\ (exists p, EmpForm.pay Float f = Some p /\ float_truthy p = true)
  /\ (exists c, EmpForm.roleid Float f = Some c
                /\ c ∈ ["1"; "2"; "3"; "4"; "5"])
  /\ (exists z, EmpForm.sid Float f = Some z /\ z <> 0%Z).
Proof.
  unfold EmpForm.validate, EmpForm.errors.
  rewrite bool_decide_eq_true, filter_nonempty_nil.
  rewrite !Forall_cons, Forall_nil. cbn [snd].
  rewrite !required_errors_nil, roleid_errors_nil, !required_str_true.
  assert (EmpForm.required_float Float float_truthy (EmpForm.pay Float f)
          = true <->
          exists p, EmpForm.pay Float f = Some p /\ float_truthy p = true)
    as P.
  { destruct (EmpForm.pay Float f) as [p|]; cbn.
    - split; [eauto|]. intros (p' & E & T). inversion E; subst. exact T.
    - split; [discriminate|]. intros (p & E & _). discriminate. }
  assert (EmpForm.required_int (EmpForm.sid Float f) = true <->
          exists z, EmpForm.sid Float f = Some z /\ z <> 0%Z) as S.
  { destruct (EmpForm.sid Float f) as [z|]; cbn.
    - rewrite negb_true_iff, Z.eqb_neq. split; [eauto|].
      intros (z' & E & N). inversion E; subst. exact N.
    - split; [discriminate|]. intros (z & E & _). discriminate. }
  rewrite P, S. tauto.
Qed.

(** * Loading the generated users *)

Lemma NoDup_zip_fst (ks vs : list string) :
  NoDup ks -> NoDup (zip ks vs).*1.
Proof.
  revert vs. induction ks as [|k ks IH]; intros vs N; [constructor|].
  destruct vs as [|v vs]; [constructor|].
  inversion N as [|? ? Hk Hks]; subst. cbn. constructor.
  - intros Hin. apply Hk. apply list_elem_of_fmap in Hin.
    destruct Hin as ([k' v'] & -> & Hin). cbn.
    eapply elem_of_zip_l. exact Hin.
  - apply IH. exact Hks.
Qed.

(** X16: With distinct field names, the dictionary of line 249 maps a name to
    the entry of the row that stands at the name's position, and holds
    nothing else: a name beyond the end of a short row is missing. *)
Theorem userdict_lookup (user_fields user : list string) (k v : string) :
  NoDup user_fields ->
  (InitDb.userdict user_fields user !! k = Some v <->
   exists i, user_fields !! i = Some k /\ user !! i = Some v).
Proof.
  intros N. unfold InitDb.userdict.
  rewrite <- elem_of_list_to_map.
  2: { rewrite fmap_reverse, reverse_Permutation. apply NoDup_zip_fst, N. }
  rewrite elem_of_reverse. split.
  - intros H. apply (elem_of_lookup_zip_with pair) in H.
    destruct H as (i & x & y & E & Hx & Hy). inversion E; subst. eauto.
  - intros (i & Hx & Hy). apply (elem_of_lookup_zip_with pair).
    exists i, k, v. auto.
Qed.



(** * The properties on concrete inputs *)

Ltac pick_element :=
  apply list_elem_of_In; vm_compute;
  repeat first [ left; reflexivity | right ].

Lemma getter_argument_not_escaped_witness :
  Tables.ends_in_literal "O'Brien" = true
  /\ Tables.ends_in_literal
       (Tables.statement
          (Tables.mkGetter true "SELECT * FROM getStoresCity('{0}');" false)
          (Some "O'Brien")) =
     Tables.ends_in_literal "O'Brien".
Proof.
  split; [reflexivity|].
  apply (getter_argument_not_escaped "getStoresCity"
           (Tables.mkGetter true "SELECT * FROM getStoresCity('{0}');" false)
           "O'Brien"); [pick_element|reflexivity].
Defined.

Lemma getter_parentheses_balance_witness :
  Tables.open_parens
    (Tables.statement
       (Tables.mkGetter true "SELECT * FROM avg_hourly_city('{0})';" true)
       (Some "Tampa")) = 1%Z
  /\ Tables.open_parens
       (Tables.statement
          (Tables.mkGetter true "SELECT * FROM avg_sal_city('{0}');" true)
          (Some "Tampa")) = 0%Z.
Proof.
  split.
  - apply (getter_parentheses_balance "getAvgHrlyCity"
             (Tables.mkGetter true "SELECT * FROM avg_hourly_city('{0})';"
                true) "Tampa"); [pick_element|reflexivity|reflexivity].
  - apply (getter_parentheses_balance "getAvgSalCity"
             (Tables.mkGetter true "SELECT * FROM avg_sal_city('{0}');"
                true) "Tampa"); [pick_element|reflexivity|reflexivity].
Defined.

Lemma ProductsTable_zip_and_city_queries_unreachable_witness :
  Tables.template
    (Tables.mkGetter true "Select * FROM getProdState('{0}');" false) <>
    "Select * FROM getProdZip('{0}');"
  /\ Tables.template
       (Tables.mkGetter true "Select * FROM getProdState('{0}');" false) <>
     "Select * FROM getProdCity('{0}');".
Proof.
  apply (ProductsTable_zip_and_city_queries_unreachable "getProductsZip").
  reflexivity.
Defined.

Lemma scalar_getter_fails_on_empty_result_witness :
  Tables.run_getter nat TablesDemo.empty_backend
    (Tables.mkGetter false "SELECT * FROM getAvgSalAll();" true) None [] =
    (Tables.Err Tables.TypeError,
     [ Tables.Connect; Tables.Execute "SELECT * FROM getAvgSalAll();" ]).
Proof.
  apply (scalar_getter_fails_on_empty_result TablesDemo.empty_backend
           (Tables.mkGetter false "SELECT * FROM getAvgSalAll();" true)
           None []); reflexivity.
Defined.

Lemma pages_render_when_queries_answer_witness :
  exists ctx,
    Tables.employees_page nat TablesDemo.answering_backend [] =
      (Tables.Ok (Tables.mkResponse nat "employees.html" ctx),
       [ Tables.Connect; Tables.Execute "SELECT * FROM getAvgSalAll();";
         Tables.Close;
         Tables.Connect; Tables.Execute "SELECT * FROM getAvgHrlyAll();";
         Tables.Close;
         Tables.Connect;
         Tables.Execute
           "SELECT * FROM employees NATURAL JOIN employment order by eid;";
         Tables.Close ]).
Proof.
  assert (forall t, Tables.connect TablesDemo.answering_backend t = None) as C
    by reflexivity.
  assert (forall t s, exists r rs,
             Tables.execute TablesDemo.answering_backend t s = inr (r :: rs)) as E
    by (intros t s; exists (7%nat, []), []; reflexivity).
  exact (proj1 (proj2 (proj2
           (pages_render_when_queries_answer TablesDemo.answering_backend C E)))).
Defined.

Lemma userdict_lookup_witness :
  InitDb.userdict ["username"; "email"; "password"] ["ann"; "ann@x.org"]
    !! "email" = Some "ann@x.org"
  /\ InitDb.userdict ["username"; "email"; "password"] ["ann"; "ann@x.org"]
       !! "password" = None.
Proof.
  assert (NoDup ["username"; "email"; "password"]) as N.
  { apply (bool_decide_unpack _). vm_compute. exact I. }
  split.
  - apply (userdict_lookup ["username"; "email"; "password"]
             ["ann"; "ann@x.org"] "email" "ann@x.org" N).
    exists 1%nat. split; reflexivity.
  - destruct (InitDb.userdict ["username"; "email"; "password"]
                ["ann"; "ann@x.org"] !! "password") as [v|] eqn:E;
      [|reflexivity].
    apply (userdict_lookup ["username"; "email"; "password"]
             ["ann"; "ann@x.org"] "password" v N) in E.
    destruct E as ([|[|[|i]]] & Hk & Hv); cbn in Hk, Hv; discriminate.
Defined.

(** * The confirmation gate on the concrete directory *)

Lemma confirmation_pending_raises_witness :
  App.confirmation_in_force Demo.confirmation_on = true
  /\ App.login_result Demo.get_user Demo.hasher_verify Demo.hasher_hash
       Demo.store_password [] [] Demo.confirmation_on
       Demo.directory "carol" "carol-pw" =
     Raised (AttributeError "User" "confirmed_at").
Proof.
  split; [reflexivity|].
  apply (confirmation_pending_raises Demo.get_user Demo.hasher_verify
           Demo.hasher_hash Demo.store_password [] []
           Demo.confirmation_on Demo.directory "carol" "carol-pw"
           Demo.carol); reflexivity.
Defined.

Lemma confirmation_gate_ends_in_exception_witness :
  checks_of
    (trace (App.login Demo.get_user Demo.hasher_verify Demo.hasher_hash
              Demo.store_password [] [] Demo.confirmation_on
              Demo.directory "grace" "grace-pw").2) =
    [ IdentifierPresence; SecretPresence; IdentityResolution;
      SecretHashPresence; SecretVerification; ConfirmationGate ]
  /\ last
       (trace (App.login Demo.get_user Demo.hasher_verify Demo.hasher_hash
                 Demo.store_password [] [] Demo.confirmation_on
                 Demo.directory "grace" "grace-pw").2) =
     Some (EvCheck ConfirmationGate)
  /\ (App.login Demo.get_user Demo.hasher_verify Demo.hasher_hash
        Demo.store_password [] [] Demo.confirmation_on
        Demo.directory "grace" "grace-pw").1 =
     Raised (AttributeError "User" "confirmed_at").
Proof.
  apply (confirmation_gate_ends_in_exception Demo.get_user
           Demo.hasher_verify Demo.hasher_hash Demo.store_password [] []
           Demo.confirmation_on Demo.directory "grace" "grace-pw"
           Demo.grace); reflexivity.
Defined.
